(** * journal.py: a date-titled journal file and its seven-day picker

    A shallow embedding of [journal.py] and of the parts of the Python
    run time it calls ([datetime], [str], [os.path], text files and
    [curses] windows), followed by the properties of the program.

    Python integers are [Z], strings are [string], lists are [list].
    The file system is a finite map from path names to nodes.  Code that
    touches the file system, the terminal or standard output runs in a
    state monad over [World] whose results may be exceptions. *)

From Stdlib Require Import ZArith Ascii String List Lia Bool.
From stdpp Require Import base numbers option list strings gmap pretty.

Open Scope Z_scope.

(* [simpl] may unfold [+:+] on a text that starts with a known character *)
Arguments String.append !s1 s2 : simpl nomatch.

(** ** Python strings *)

Module Str.

(** [len(s)] *)
Definition len (s : string) : Z := Z.of_nat (String.length s).

Fixpoint repeat (s : string) (n : nat) : string :=
  match n with
  | O => EmptyString
  | S n' => s +:+ repeat s n'
  end.

(** [s * n]; a count below 1 gives the empty string *)
Definition mul (s : string) (n : Z) : string := repeat s (Z.to_nat n).

Definition last_char (s : string) : option ascii :=
  last (list_ascii_of_string s).

(** [s.startswith(c)] and [s.endswith(c)] for a one-character [c] *)
Definition startswith (s : string) (c : ascii) : bool :=
  match s with
  | String c' _ => Ascii.eqb c' c
  | EmptyString => false
  end.

Definition endswith (s : string) (c : ascii) : bool :=
  match last_char s with
  | Some c' => Ascii.eqb c' c
  | None => false
  end.

Definition is_lower (c : ascii) : bool :=
  (97 <=? Z.of_nat (nat_of_ascii c)) && (Z.of_nat (nat_of_ascii c) <=? 122).


Definition is_digit (c : ascii) : bool :=
  (48 <=? Z.of_nat (nat_of_ascii c)) && (Z.of_nat (nat_of_ascii c) <=? 57).

Definition upper_char (c : ascii) : ascii :=
  if is_lower c then ascii_of_nat (nat_of_ascii c - 32) else c.

(** [s.upper()] on ASCII text *)
Fixpoint upper (s : string) : string :=
  match s with
  | EmptyString => EmptyString
  | String c s' => String (upper_char c) (upper s')
  end.

Fixpoint all (p : ascii -> bool) (s : string) : bool :=
  match s with
  | EmptyString => true
  | String c s' => p c && all p s'
  end.

(** the decimal digit [0..9] as a character *)
Definition digit (n : Z) : ascii := ascii_of_nat (48 + Z.to_nat n).

(** C's [%0wd] for [0 <= n < 10^w]: exactly [w] digits, zero filled *)
Fixpoint zero_pad (w : nat) (n : Z) : string :=
  match w with
  | O => EmptyString
  | S w' => zero_pad w' (n / 10) +:+ String (digit (n mod 10)) EmptyString
  end.

End Str.

(** ** The [datetime] module *)

Module datetime.

Record t := mk {
  year : Z; month : Z; day : Z;
  hour : Z; minute : Z; second : Z; microsecond : Z
}.

Definition MAXYEAR : Z := 9999.
Definition MAXORDINAL : Z := 3652059.

Definition DAYS_IN_MONTH : list Z :=
  [-1; 31; 28; 31; 30; 31; 30; 31; 31; 30; 31; 30; 31].
Definition DAYS_BEFORE_MONTH : list Z :=
  [-1; 0; 31; 59; 90; 120; 151; 181; 212; 243; 273; 304; 334].

Definition table (l : list Z) (i : Z) : Z := nth (Z.to_nat i) l (-1).

Definition is_leap (y : Z) : bool :=
  (y mod 4 =? 0) && (negb (y mod 100 =? 0) || (y mod 400 =? 0)).

Definition days_before_year (y : Z) : Z :=
  let y := y - 1 in y * 365 + y / 4 - y / 100 + y / 400.

Definition days_in_month (y m : Z) : Z :=
  if (m =? 2) && is_leap y then 29 else table DAYS_IN_MONTH m.

Definition days_before_month (y m : Z) : Z :=
  table DAYS_BEFORE_MONTH m + (if (2 <? m) && is_leap y then 1 else 0).

Definition ymd2ord (y m d : Z) : Z :=
  days_before_year y + days_before_month y m + d.

Definition DI400Y : Z := 146097.
Definition DI100Y : Z := 36524.
Definition DI4Y : Z := 1461.

Definition ord2ymd (n : Z) : Z * Z * Z :=
  let n := n - 1 in
  let n400 := n / DI400Y in
  let n := n mod DI400Y in
  let year := n400 * 400 + 1 in
  let n100 := n / DI100Y in
  let n := n mod DI100Y in
  let n4 := n / DI4Y in
  let n := n mod DI4Y in
  let n1 := n / 365 in
  let n := n mod 365 in
  let year := year + (n100 * 100 + n4 * 4 + n1) in
  if (n1 =? 4) || (n100 =? 4) then (year - 1, 12, 31)
  else
    let leapyear := (n1 =? 3) && (negb (n4 =? 24) || (n100 =? 3)) in
    let month := Z.shiftr (n + 50) 5 in
    let preceding :=
      table DAYS_BEFORE_MONTH month
      + (if (2 <? month) && leapyear then 1 else 0) in
    if n <? preceding then
      let month := month - 1 in
      let preceding :=
        preceding
        - (table DAYS_IN_MONTH month
           + (if (month =? 2) && leapyear then 1 else 0)) in
      (year, month, n - preceding + 1)
    else (year, month, n - preceding + 1).

(** [d.toordinal()]: day number, 0001-01-01 is day 1 *)
Definition toordinal (d : t) : Z := ymd2ord (year d) (month d) (day d).

(** [d.weekday()]: Monday is 0 *)
Definition weekday (d : t) : Z := (toordinal d + 6) mod 7.

(** The values a [datetime] object can hold. *)
Definition valid (d : t) : Prop :=
  1 <= year d <= MAXYEAR /\ 1 <= month d <= 12 /\
  1 <= day d <= days_in_month (year d) (month d) /\
  0 <= hour d < 24 /\ 0 <= minute d < 60 /\ 0 <= second d < 60 /\
  0 <= microsecond d < 1000000.

Definition validb (d : t) : bool :=
  (1 <=? year d) && (year d <=? MAXYEAR) && (1 <=? month d) && (month d <=? 12)
  && (1 <=? day d) && (day d <=? days_in_month (year d) (month d))
  && (0 <=? hour d) && (hour d <? 24) && (0 <=? minute d) && (minute d <? 60)
  && (0 <=? second d) && (second d <? 60)
  && (0 <=? microsecond d) && (microsecond d <? 1000000).

(** [d - timedelta(days=i)].  The day number moves by [i]; the time of
    day is rebuilt from its seconds, as [datetime.__add__] does.  A day
    number outside [1..MAXORDINAL] is Python's [OverflowError], here
    [None]. *)
Definition sub_days (d : t) (i : Z) : option t :=
  let days := toordinal d - i in
  let seconds := hour d * 3600 + minute d * 60 + second d in
  let hh := seconds / 3600 in
  let rem := seconds mod 3600 in
  let mm := rem / 60 in
  let ss := rem mod 60 in
  if (0 <? days) && (days <=? MAXORDINAL) then
    let '(y, m, dd) := ord2ymd days in
    Some (mk y m dd hh mm ss (microsecond d))
  else None.

(** Abbreviated weekday names of the C locale, indexed by [weekday]. *)
Definition abday : list string :=
  ["Mon"; "Tue"; "Wed"; "Thu"; "Fri"; "Sat"; "Sun"]%string.

(** One [strftime] directive, as the C library formats it: [%Y] is the
    year in decimal with no padding (so a year below 1000 has fewer than
    four digits), [%m] and [%d] are two digits, zero filled.  [%a] is
    taken in the C locale: the program never calls [setlocale], so
    [LC_TIME] stays at its start-up value. *)
Definition directive (c : ascii) (d : t) : string :=
  if Ascii.eqb c "Y" then pretty (year d)
  else if Ascii.eqb c "m" then Str.zero_pad 2 (month d)
  else if Ascii.eqb c "d" then Str.zero_pad 2 (day d)
  else if Ascii.eqb c "a" then nth (Z.to_nat (weekday d)) abday ""%string
  else String "%" (String c EmptyString).

(** [d.strftime(fmt)] for the directives above; other characters are
    copied. *)
Fixpoint strftime (fmt : string) (d : t) : string :=
  match fmt with
  | EmptyString => EmptyString
  | String c rest =>
      if Ascii.eqb c "%" then
        match rest with
        | EmptyString => String c EmptyString
        | String k rest' => directive k d +:+ strftime rest' d
        end
      else String c (strftime rest d)
  end.

End datetime.

(** ** journal.py: titles *)

Definition get_title (date : datetime.t) : string :=
  Str.upper (datetime.strftime "%Y-%m-%d-%a" date).

(** ** The world the program runs in *)

Inductive node :=
  | File (content : string)
  | Dir.

Inductive exn :=
  | OverflowError
  | FileNotFoundError (path : string)
  | IsADirectoryError (path : string)
  | NotADirectoryError (path : string)
  | IndexError
  | curses_error
  | SystemExit (code : Z).

(** One [addstr] that reached the window. *)
Record Draw := { draw_y : Z; draw_x : Z; draw_text : string; draw_attr : Z }.

Record World := {
  fs : gmap string node;      (* path name -> node; a flat store *)
  stdout : list string;       (* what [print] wrote, oldest first *)
  now : datetime.t;           (* the reading of the system clock *)
  screen : list Draw;         (* the window since the last [clear] *)
  attr : Z                    (* the window's current attributes *)
}.

Definition with_fs (f : gmap string node) (w : World) : World :=
  {| fs := f; stdout := stdout w; now := now w; screen := screen w; attr := attr w |}.
Definition with_stdout (o : list string) (w : World) : World :=
  {| fs := fs w; stdout := o; now := now w; screen := screen w; attr := attr w |}.
Definition with_screen (s : list Draw) (w : World) : World :=
  {| fs := fs w; stdout := stdout w; now := now w; screen := s; attr := attr w |}.
Definition with_attr (a : Z) (w : World) : World :=
  {| fs := fs w; stdout := stdout w; now := now w; screen := screen w; attr := a |}.

(** A computation ends with a value, with an exception, or waits for a
    key that never comes. *)
Inductive outcome (A : Type) :=
  | Ok (a : A)
  | Raise (e : exn)
  | Blocked.
Arguments Ok {A} a.
Arguments Raise {A} e.
Arguments Blocked {A}.

Definition M (A : Type) : Type := World -> outcome A * World.

#[export] Instance M_ret : MRet M := fun A a w => (Ok a, w).
#[export] Instance M_bind : MBind M := fun A B f m w =>
  match m w with
  | (Ok a, w') => f a w'
  | (Raise e, w') => (Raise e, w')
  | (Blocked, w') => (Blocked, w')
  end.

Definition raise {A} (e : exn) : M A := fun w => (Raise e, w).
Definition blocked {A} : M A := fun w => (Blocked, w).

(** [xs[i]]: a negative index counts from the end. *)
Definition index {A} (xs : list A) (i : Z) : M A :=
  let n := Z.of_nat (length xs) in
  let j := if i <? 0 then i + n else i in
  if (0 <=? j) && (j <? n) then
    match xs !! Z.to_nat j with
    | Some x => mret x
    | None => raise IndexError
    end
  else raise IndexError.

(** [print(s)] *)
Definition print (s : string) : M unit := fun w =>
  (Ok tt, with_stdout (stdout w ++ [s]) w).

(** [datetime.datetime.now()] *)
Definition datetime_now : M datetime.t := fun w => (Ok (now w), w).

(** [today - datetime.timedelta(days=i)] *)
Definition minus_days (today : datetime.t) (i : Z) : M datetime.t :=
  match datetime.sub_days today i with
  | Some d => mret d
  | None => raise OverflowError
  end.

(** *** [os.path] and text files *)

Module os_path.

Definition join (a b : string) : string :=
  if Str.startswith b "/" then b
  else if String.eqb a "" || Str.endswith a "/" then a +:+ b
  else a +:+ "/" +:+ b.

(** [p[:p.rfind("/") + 1]]: [p] up to its last slash, the slash
    included; empty when [p] has no slash *)
Fixpoint head (p : string) : string :=
  match p with
  | EmptyString => EmptyString
  | String c p' =>
      match head p' with
      | EmptyString => if Ascii.eqb c "/" then String c EmptyString else EmptyString
      | h => String c h
      end
  end.

(** [s.rstrip("/")] *)
Fixpoint rstrip (s : string) : string :=
  match s with
  | EmptyString => EmptyString
  | String c s' =>
      match rstrip s' with
      | EmptyString => if Ascii.eqb c "/" then EmptyString else String c EmptyString
      | r => String c r
      end
  end.

(** [os.path.dirname(p)]: the head without its trailing slashes, unless
    it consists of slashes only *)
Definition dirname (p : string) : string :=
  let h := head p in
  if String.eqb (rstrip h) "" then h else rstrip h.

Definition exists_ (p : string) : M bool := fun w =>
  (Ok (bool_decide (is_Some (fs w !! p))), w).

Definition isdir (p : string) : M bool := fun w =>
  (Ok (match fs w !! p with Some Dir => true | _ => false end), w).

End os_path.

Definition LF : ascii := ascii_of_nat 10.
Definition CR : ascii := ascii_of_nat 13.

(** The lines a text file opened with [open(p, "r")] yields when it is
    iterated: universal newlines, so [\n], [\r\n] and a lone [\r] each end
    a line (read back as [\n]), and text after the last of them is a final
    line.  [cur] is the line read so far. *)
Fixpoint text_lines (cur : string) (s : string) : list string :=
  match s with
  | EmptyString => if String.eqb cur "" then [] else [cur]
  | String c s' =>
      if Ascii.eqb c LF then (cur +:+ String LF "") :: text_lines "" s'
      else if Ascii.eqb c CR then
        match s' with
        | String c' s'' =>
            if Ascii.eqb c' LF then (cur +:+ String LF "") :: text_lines "" s''
            else (cur +:+ String LF "") :: text_lines "" s'
        | EmptyString => (cur +:+ String LF "") :: text_lines "" s'
        end
      else text_lines (cur +:+ String c "") s'
  end.

(** [with open(p, "r") as f]: the lines of [f]. *)
Definition open_r (p : string) : M (list string) := fun w =>
  match fs w !! p with
  | Some (File c) => (Ok (text_lines "" c), w)
  | Some Dir => (Raise (IsADirectoryError p), w)
  | None => (Raise (FileNotFoundError p), w)
  end.

(** What holds the file named [p]: the node at the directory part of
    [p].  A name without a directory part lies in the current directory,
    and a directory part of slashes only is the root: these two are
    always there. *)
Definition holder (f : gmap string node) (p : string) : option node :=
  let d := os_path.dirname p in
  if String.eqb (os_path.rstrip d) "" then Some Dir else f !! d.

(** [with open(p, "w") as f: f.write(c1); f.write(c2); ...]: the file is
    created or truncated and holds the chunks, in order, when the block is
    left.  The file is created in the directory that holds it: when that
    one is missing the open fails with [FileNotFoundError], when it is a
    file with [NotADirectoryError], and nothing is written; so it does
    for the empty path.  A directory cannot be opened for writing. *)
Definition open_w (p : string) (chunks : list string) : M unit := fun w =>
  if String.eqb p "" then (Raise (FileNotFoundError p), w)
  else
    match holder (fs w) p with
    | None => (Raise (FileNotFoundError p), w)
    | Some (File _) => (Raise (NotADirectoryError p), w)
    | Some Dir =>
        match fs w !! p with
        | Some Dir => (Raise (IsADirectoryError p), w)
        | _ => (Ok tt, with_fs (<[p := File (fold_right String.append "" chunks)]> (fs w)) w)
        end
    end.

(** *** [curses] *)

Module curses.

(** what [getmaxyx] reports for a window *)
Record window := { height : Z; width : Z }.

Definition KEY_DOWN : Z := 258.
Definition KEY_UP : Z := 259.
Definition COLOR_RED : Z := 1.
Definition COLOR_YELLOW : Z := 3.
Definition COLOR_WHITE : Z := 7.

Definition color_pair (n : Z) : Z := Z.shiftl n 8.

(** Terminal set-up: no state that the program reads back. *)
Definition curs_set (v : Z) : M unit := mret tt.
Definition start_color : M unit := mret tt.
Definition use_default_colors : M unit := mret tt.
Definition init_pair (n fg bg : Z) : M unit := mret tt.
Definition refresh : M unit := mret tt.

Definition clear : M unit := fun w => (Ok tt, with_screen [] w).
Definition attron (a : Z) : M unit := fun w =>
  (Ok tt, with_attr (Z.lor (attr w) a) w).
Definition attroff (a : Z) : M unit := fun w =>
  (Ok tt, with_attr (Z.land (attr w) (Z.lnot a)) w).

(** [addstr] moves to [(y, x)], which must be a cell of the window, and
    writes [s], wrapping at the right edge; reaching the last cell of
    the window is an error, as the cursor cannot advance. *)
Definition fits (scr : window) (y x : Z) (s : string) : bool :=
  (0 <=? y) && (y <? height scr) && (0 <=? x) && (x <? width scr)
  && ((Str.len s =? 0) || (y * width scr + x + Str.len s <? height scr * width scr)).

Definition addstr (scr : window) (y x : Z) (s : string) : M unit := fun w =>
  if fits scr y x s then
    (Ok tt, with_screen (screen w ++ [Build_Draw y x s (attr w)]) w)
  else (Raise curses_error, w).

(** [endwin]: the terminal leaves curses mode. *)
Definition endwin : M unit := fun w => (Ok tt, with_attr 0 (with_screen [] w)).

(** [curses.wrapper(f, ...)]: run [f] on the terminal's window and
    restore the terminal whatever [f] does. *)
Definition wrapper {A} (scr : window) (f : window -> M A) : M A := fun w =>
  let '(r, w') := f scr w in (r, snd (endwin w')).

End curses.

(** ** journal.py *)

(** [get_file_line_count] *)
Definition get_file_line_count (filepath : string) : M Z :=
  e ← os_path.exists_ filepath;
  if negb e then mret 0
  else
    f ← open_r filepath;
    mret (Z.of_nat (length f)).

(** The block of [create_journal_file] before the editor is started
    (lines 18-31): the header is written when nothing is at the path. *)
Definition ensure_created (date : datetime.t) (output_dir : string) : M string :=
  let title := get_title date in
  let filename := title +:+ ".md" in
  let filepath := os_path.join output_dir filename in
  file_exists ← os_path.exists_ filepath;
  (if negb file_exists then
     open_w filepath
       [title +:+ String LF ""; Str.mul "=" (Str.len title) +:+ String LF (String LF "")];;
     print ("Created new journal file: " +:+ filepath)
   else print ("Opening existing journal file: " +:+ filepath));;
  mret filepath.

(** [ord(c)] *)
Definition ord (c : ascii) : Z := Z.of_nat (nat_of_ascii c).

(** [range(n)] *)
Definition range (n : nat) : list Z := map Z.of_nat (seq 0 n).

(** A list comprehension or [for] loop whose body runs in [M]. *)
Fixpoint for_each {A B} (f : A -> M B) (xs : list A) : M (list B) :=
  match xs with
  | [] => mret []
  | x :: xs' => y ← f x; ys ← for_each f xs'; mret (y :: ys)
  end.

(** [enumerate(xs)], counting from [i] *)
Fixpoint enumerate {A} (i : Z) (xs : list A) : list (Z * A) :=
  match xs with
  | [] => []
  | x :: xs' => (i, x) :: enumerate (i + 1) xs'
  end.

(** The local variables of [select_date] that live across the loop. *)
Record picker := {
  dates : list datetime.t;
  files_exist : list bool;
  line_counts : list Z;
  max_row : Z;
  current_row : Z
}.

Definition set_current_row (r : Z) (st : picker) : picker :=
  {| dates := dates st; files_exist := files_exist st;
     line_counts := line_counts st; max_row := max_row st; current_row := r |}.

(** Lines 60-64: the dates of the last week, today last. *)
Definition last_week : M (list datetime.t) :=
  today ← datetime_now;
  dates ← for_each (fun i => minus_days today i) (range 7);
  mret (reverse dates).

(** Lines 73-84: the loop that samples the journal files, with the two
    lists it appends to. *)
Fixpoint scan (output_dir : string) (ds : list datetime.t)
    (files_exist : list bool) (line_counts : list Z) : M (list bool * list Z) :=
  match ds with
  | [] => mret (files_exist, line_counts)
  | date :: rest =>
      let filename := get_title date +:+ ".md" in
      let filepath := os_path.join output_dir filename in
      e ← os_path.exists_ filepath;
      let files_exist := files_exist ++ [e] in
      line_counts ←
        (if e then
           n ← get_file_line_count filepath;
           let line_count := n - 3 in
           mret (line_counts ++ [line_count])
         else mret (line_counts ++ [0]));
      scan output_dir rest files_exist line_counts
  end.

(** Lines 60-84: everything [select_date] does before it draws. *)
Definition setup (output_dir : string) : M picker :=
  dates ← last_week;
  let max_row := Z.of_nat (length dates) - 1 in
  let current_row := max_row in
  sampled ← scan output_dir dates [] [];
  mret {| dates := dates; files_exist := fst sampled;
          line_counts := snd sampled; max_row := max_row;
          current_row := current_row |}.

(** Lines 93-99: the text of row [idx]. *)
Definition display_str (st : picker) (idx : Z) (date : datetime.t) : M string :=
  let date_str := get_title date in
  e ← index (files_exist st) idx;
  if (e : bool) then
    c ← index (line_counts st) idx;
    mret (date_str +:+ ": " +:+ pretty c)
  else mret date_str.

(** Lines 93-120: the body of the drawing loop. *)
Definition draw_row (stdscr : curses.window) (st : picker)
    (row : Z * datetime.t) : M unit :=
  let '(idx, date) := row in
  display_str ← display_str st idx date;
  e ← index (files_exist st) idx;
  let color_pair := if (e : bool) then curses.color_pair 2 else curses.color_pair 1 in
  let arrow_x := (curses.width stdscr - Str.len display_str) / 2 - 2 in
  let text_x := (curses.width stdscr - Str.len display_str) / 2 in
  let y := 4 + idx in
  (if idx =? current_row st then
     curses.attron (curses.color_pair 3);;
     curses.addstr stdscr y arrow_x ">";;
     curses.attroff (curses.color_pair 3)
   else mret tt);;
  curses.attron color_pair;;
  curses.addstr stdscr y text_x display_str;;
  curses.attroff color_pair.

(** Lines 88-127: one full redraw. *)
Definition render (stdscr : curses.window) (st : picker) : M unit :=
  curses.clear;;
  for_each (draw_row stdscr st) (enumerate 0 (dates st));;
  curses.addstr stdscr (curses.height stdscr - 2) 2
    "Use arrow keys to navigate, Enter to select, q to quit";;
  curses.refresh.

(** Lines 132-139: what a key does. *)
Inductive action :=
  | Stay (current_row : Z)
  | Select
  | Quit.

Definition on_key (key : Z) (max_row current_row : Z) : action :=
  if (key =? curses.KEY_UP) && (0 <? current_row) then Stay (current_row - 1)
  else if (key =? curses.KEY_DOWN) && (current_row <? max_row) then Stay (current_row + 1)
  else if key =? ord LF then Select
  else if key =? ord "q" then Quit
  else Stay current_row.

(** Lines 87-139: the menu loop.  [keys] is what [getch] will return, one
    key per call; when it is exhausted [getch] never returns. *)
Fixpoint menu (keys : list Z) (stdscr : curses.window) (st : picker)
    : M (option datetime.t) :=
  render stdscr st;;
  match keys with
  | [] => blocked
  | key :: keys' =>
      match on_key key (max_row st) (current_row st) with
      | Stay r => menu keys' stdscr (set_current_row r st)
      | Select => d ← index (dates st) (current_row st); mret (Some d)
      | Quit => mret None
      end
  end.

Definition select_date (keys : list Z) (output_dir : string)
    (stdscr : curses.window) : M (option datetime.t) :=
  curses.curs_set 0;;
  curses.clear;;
  curses.start_color;;
  curses.use_default_colors;;
  curses.init_pair 1 curses.COLOR_RED (-1);;
  curses.init_pair 2 curses.COLOR_WHITE (-1);;
  curses.init_pair 3 curses.COLOR_YELLOW (-1);;
  st ← setup output_dir;
  menu keys stdscr st.

(** [sys.exit(code)] *)
Definition sys_exit {A} (code : Z) : M A := raise (SystemExit code).

(** The parsed command line. *)
Record Args := { out : string; select : bool }.

Section Program.

(** The editor: the exit status of [vi] run on a path and what it makes
    of the file system, or [None] when no program [vi] is found on the
    search path. *)
Variable vi : string -> gmap string node -> option (Z * gmap string node).

(** [subprocess.call(["vi", filepath])]: it waits for the editor and
    returns its exit status; without a program to run it raises
    [FileNotFoundError]. *)
Definition subprocess_call_vi (filepath : string) : M Z := fun w =>
  match vi filepath (fs w) with
  | Some (status, f) => (Ok status, with_fs f w)
  | None => (Raise (FileNotFoundError "vi"), w)
  end.

Definition create_journal_file (date : datetime.t) (output_dir : string)
    : M string :=
  filepath ← ensure_created date output_dir;
  subprocess_call_vi filepath;;
  mret filepath.

(** [keys] and [term] are the keyboard and the terminal window that
    [curses.wrapper] finds. *)
Definition main (args : Args) (keys : list Z) (term : curses.window) : M unit :=
  d ← os_path.isdir (out args);
  (if negb d then
     print ("Error: Output directory '" +:+ out args +:+ "' does not exist.");;
     sys_exit 1
   else mret tt);;
  date ←
    (if select args then
       selected_date ← curses.wrapper term (select_date keys (out args));
       match selected_date with
       | None => sys_exit 0
       | Some d => mret d
       end
     else datetime_now);
  create_journal_file date (out args);;
  mret tt.

(** The exit status of the process: 0 after a normal end, the code of
    [sys.exit], 1 after any other exception; none while it waits. *)
Definition exit_status {A} (r : outcome A) : option Z :=
  match r with
  | Ok _ => Some 0
  | Raise (SystemExit c) => Some c
  | Raise _ => Some 1
  | Blocked => None
  end.

End Program.

(** ** Definitions used to state and prove the properties *)

(** [p] holds at [k, k+1, ..., k+n-1]. *)
Fixpoint all_from (n : nat) (k : Z) (p : Z -> bool) : bool :=
  match n with
  | O => true
  | S n' => p k && all_from n' (k + 1) p
  end.

(** Day [r + 1] of the first 400-year cycle converts to a date of that
    cycle and back; days up to [145730] fall before year 400. *)
Definition cycle_day_ok (r : Z) : bool :=
  let '(y, m, d) := datetime.ord2ymd (r + 1) in
  (1 <=? y) && (y <=? 400) && (1 <=? m) && (m <=? 12) && (1 <=? d)
  && (d <=? datetime.days_in_month y m)
  && (datetime.ymd2ord y m d =? r + 1)
  && ((145730 <? r) || (y <=? 399)).

(** A date of the first 400-year cycle converts to a day of that cycle
    and back. *)
Definition cycle_date_ok (y m d : Z) : bool :=
  (datetime.days_in_month y m <? d)
  || (let n := datetime.ymd2ord y m d in
      let '(y', m', d') := datetime.ord2ymd n in
      (y' =? y) && (m' =? m) && (d' =? d) && (1 <=? n) && (n <=? 146097)
      && ((399 <? y) || (n <=? 145731))).

Definition shift_year (q : Z) (ymd : Z * Z * Z) : Z * Z * Z :=
  let '(y, m, d) := ymd in (y + 400 * q, m, d).


Definition DIGITS : list ascii :=
  ["0"; "1"; "2"; "3"; "4"; "5"; "6"; "7"; "8"; "9"]%char.

(** A test that the ten digits pass. *)
Definition digits_pass (p : ascii -> bool) : Prop := forallb p DIGITS = true.

Definition WEEKDAYS : list string :=
  ["MON"; "TUE"; "WED"; "THU"; "FRI"; "SAT"; "SUN"]%string.

Definition not_newline (c : ascii) : bool :=
  negb (Ascii.eqb c LF) && negb (Ascii.eqb c CR).

(** The number of line terminators in a text: [\n], [\r\n] and a lone
    [\r] each count once.  These are the newline-terminated records. *)
Fixpoint terminated_records (s : string) : Z :=
  match s with
  | EmptyString => 0
  | String c s' =>
      if Ascii.eqb c LF then 1 + terminated_records s'
      else if Ascii.eqb c CR then
        match s' with
        | String c' s'' =>
            if Ascii.eqb c' LF then 1 + terminated_records s''
            else 1 + terminated_records s'
        | EmptyString => 1
        end
      else terminated_records s'
  end.

(** The text ends in characters that no terminator follows. *)
Definition unterminated (s : string) : bool :=
  match Str.last_char s with
  | Some c => not_newline c
  | None => false
  end.

(** The path of the journal file of a date. *)
Definition journal_path (output_dir : string) (date : datetime.t) : string :=
  os_path.join output_dir (get_title date +:+ ".md").

(** The header of a new journal file. *)
Definition header (date : datetime.t) : string :=
  get_title date +:+ String LF ""
  +:+ (Str.mul "=" (Str.len (get_title date)) +:+ String LF (String LF "")).

(** Lines written one after the other, each ended by a newline. *)
Definition join_lines (lines : list string) : string :=
  fold_right (fun l rest => l +:+ String LF rest) "" lines.

(** The cursor positions the menu loop passes through: one step for each
    key that keeps the loop running. *)
Inductive reachable (max_row : Z) : Z -> Z -> Prop :=
  | reach_here cur : reachable max_row cur cur
  | reach_key cur key cur' cur'' :
      on_key key max_row cur = Stay cur' ->
      reachable max_row cur' cur'' ->
      reachable max_row cur cur''.

(** A picker whose cursor is on one of its rows. *)
Definition on_a_row (st : picker) : Prop :=
  0 <= current_row st <= max_row st /\ max_row st < Z.of_nat (length (dates st)).

(** A picker with seven rows, as [setup] builds it. *)
Definition seven_rows (st : picker) : Prop :=
  length (dates st) = 7%nat /\ length (files_exist st) = 7%nat /\
  length (line_counts st) = 7%nat.

(** A computation that leaves the file system as it found it. *)
Definition keeps_fs {A} (m : M A) : Prop :=
  forall w, fs (snd (m w)) = fs w.

(** A computation that never looks at the file system: with another file
    system it does the same and leaves that one in place. *)
Definition fs_blind {A} (m : M A) : Prop :=
  forall w f, m (with_fs f w) = (fst (m w), with_fs f (snd (m w))).

(** What [scan] records for a date: whether something is at its path,
    and the number of lines of its file less the three header lines. *)
Definition row_exists (w : World) (output_dir : string) (d : datetime.t) : bool :=
  bool_decide (is_Some (fs w !! journal_path output_dir d)).

Definition row_count (w : World) (output_dir : string) (d : datetime.t) : Z :=
  match fs w !! journal_path output_dir d with
  | Some (File c) => Z.of_nat (length (text_lines "" c)) - 3
  | _ => 0
  end.

(** Whether text read so far, [cur] then [s], ends in an open line. *)
Definition open_line (cur s : string) : bool :=
  match Str.last_char s with
  | Some c => not_newline c
  | None => negb (String.eqb cur "")
  end.

(** *** A sample run: Friday 2024-03-15, one journal of a single line *)

Definition friday : datetime.t := datetime.mk 2024 3 15 9 30 0 0.

Definition march (day : Z) : datetime.t := datetime.mk 2024 3 day 9 30 0 0.

Definition sample_fs : gmap string node :=
  <["./2024-03-14-THU.md" := File (String "x" (String LF ""))]> (<["." := Dir]> ∅).

Definition sample_world : World :=
  {| fs := sample_fs; stdout := []; now := friday; screen := []; attr := 0 |}.

Definition sample_picker : picker :=
  {| dates := [march 9; march 10; march 11; march 12; march 13; march 14; march 15];
     files_exist := [false; false; false; false; false; true; false];
     line_counts := [0; 0; 0; 0; 0; -2; 0];
     max_row := 6;
     current_row := 6 |}.

Definition terminal : curses.window := {| curses.height := 24; curses.width := 80 |}.
Definition short_terminal : curses.window := {| curses.height := 5; curses.width := 80 |}.

Definition sample_args : Args := {| out := "."; select := true |}.

(** An editor that leaves a mark in the file it is run on. *)
Definition marking_editor (path : string) (f : gmap string node)
    : option (Z * gmap string node) :=
  Some (0, <[path := File "edited"]> f).

(** No editor installed. *)
Definition no_editor (path : string) (f : gmap string node)
    : option (Z * gmap string node) := None.

(** The file system after the editor step of [create_journal_file], from
    the result [r] and the file system [f] that [ensure_created] leaves:
    the editor runs on the path returned, if there is one and an editor
    is found. *)
Definition edited (vi : string -> gmap string node -> option (Z * gmap string node))
    (r : outcome string) (f : gmap string node) : gmap string node :=
  match r with
  | Ok path => match vi path f with Some (_, f') => f' | None => f end
  | _ => f
  end.

(** What [ensure_created] does, read off the file system: the result and
    the file system it leaves. *)
Definition creation (f : gmap string node) (output_dir : string) (d : datetime.t)
    : outcome string * gmap string node :=
  let p := journal_path output_dir d in
  match f !! p with
  | Some _ => (Ok p, f)
  | None =>
      match holder f p with
      | Some Dir => (Ok p, <[p := File (header d)]> f)
      | Some (File _) => (Raise (NotADirectoryError p), f)
      | None => (Raise (FileNotFoundError p), f)
      end
  end.


(** Friday's journal with two lines written after the header. *)
Definition written_world : World :=
  with_fs (<["./2024-03-15-FRI.md" := File (header friday +:+ join_lines ["walk"; "read"])]>
             sample_fs) sample_world.

Definition written_picker : picker :=
  {| dates := [march 9; march 10; march 11; march 12; march 13; march 14; march 15];
     files_exist := [false; false; false; false; false; true; true];
     line_counts := [0; 0; 0; 0; 0; -2; 2];
     max_row := 6;
     current_row := 6 |}.

(** A directory where Tuesday's journal would be. *)
Definition blocked_world : World :=
  with_fs (<["./2024-03-12-TUE.md" := Dir]> sample_fs) sample_world.

(** A directory without journals. *)
Definition empty_world : World := with_fs (<["." := Dir]> ∅) sample_world.

(** *** What a redraw puts on the window *)

(** The text of row [idx], read off the two sampled lists. *)
Definition row_text (st : picker) (idx : Z) (d : datetime.t) : string :=
  match files_exist st !! Z.to_nat idx, line_counts st !! Z.to_nat idx with
  | Some true, Some c => get_title d +:+ ": " +:+ pretty c
  | _, _ => get_title d
  end.

(** The colour pair of row [idx]: 2 for a date with a file, 1 without. *)
Definition row_pair (st : picker) (idx : Z) : Z :=
  match files_exist st !! Z.to_nat idx with
  | Some true => curses.color_pair 2
  | _ => curses.color_pair 1
  end.

(** What drawing one row adds to the window: the arrow, on the selected
    row, and the centred text. *)
Definition row_draws (scr : curses.window) (st : picker)
    (row : Z * datetime.t) : list Draw :=
  let '(idx, d) := row in
  let s := row_text st idx d in
  let x := (curses.width scr - Str.len s) / 2 in
  (if idx =? current_row st
   then [Build_Draw (4 + idx) (x - 2) ">" (curses.color_pair 3)]
   else [])
  ++ [Build_Draw (4 + idx) x s (row_pair st idx)].

(** The window after a redraw: the rows, top down, and the instructions. *)
Definition expected_screen (scr : curses.window) (st : picker) : list Draw :=
  flat_map (row_draws scr st) (enumerate 0 (dates st))
  ++ [Build_Draw (curses.height scr - 2) 2
        "Use arrow keys to navigate, Enter to select, q to quit" 0].

(** A window with room for the picker: 11 lines, 29 columns, and four
    columns more than the longest row. *)
Definition roomy (scr : curses.window) (st : picker) : Prop :=
  11 <= curses.height scr /\ 29 <= curses.width scr /\
  forall idx d, dates st !! idx = Some d ->
    Str.len (row_text st (Z.of_nat idx) d) + 4 <= curses.width scr.

(** How the menu loop ends on a list of keys, with the cursor at that
    point: it waits for more keys, returns the row under the cursor, or
    returns nothing. *)
Inductive verdict :=
  | Waiting (cur : Z)
  | Chosen (cur : Z)
  | Cancelled (cur : Z).

Fixpoint verdict_of (keys : list Z) (max_row cur : Z) : verdict :=
  match keys with
  | [] => Waiting cur
  | key :: keys' =>
      match on_key key max_row cur with
      | Stay r => verdict_of keys' max_row r
      | Select => Chosen cur
      | Quit => Cancelled cur
      end
  end.

Definition cursor_of (v : verdict) : Z :=
  match v with Waiting c | Chosen c | Cancelled c => c end.

(** A computation that changes nothing of the world but the window. *)
Definition window_only {A} (m : M A) : Prop :=
  forall w, fs (snd (m w)) = fs w /\ stdout (snd (m w)) = stdout w /\
            now (snd (m w)) = now w.

(** ** The calendar *)

(** The Gregorian calendar repeats every 400 years, that is every
    146097 days: the conversions are checked on one cycle by evaluation
    and carried to all years by the shift lemmas below. *)
Lemma cycle_days : all_from (Z.to_nat 146097) 0 cycle_day_ok = true.
Proof. vm_cast_no_check (eq_refl true). Qed.

Lemma cycle_dates :
  all_from (Z.to_nat 400) 1 (fun y => all_from (Z.to_nat 12) 1 (fun m =>
    all_from (Z.to_nat 31) 1 (fun d => cycle_date_ok y m d))) = true.
Proof. vm_cast_no_check (eq_refl true). Qed.

Lemma all_from_nat n : forall k p, all_from n k p = true ->
  forall j, k <= j < k + Z.of_nat n -> p j = true.
Proof.
  induction n as [|n IH]; intros k p H j Hj; [lia|].
  simpl in H. apply andb_true_iff in H as [Hk Hrest].
  destruct (Z.eq_dec j k) as [->|Hne]; [exact Hk|].
  apply (IH (k + 1) p Hrest). lia.
Qed.

Lemma all_from_spec c k p j :
  all_from (Z.to_nat c) k p = true -> k <= j < k + c -> p j = true.
Proof.
  intros H Hj. apply (all_from_nat _ _ _ H).
  rewrite Z2Nat.id; lia.
Qed.

Lemma cycle_day r : 0 <= r < 146097 -> cycle_day_ok r = true.
Proof. intros Hr. apply (all_from_spec 146097 0 _ r cycle_days). lia. Qed.

Lemma cycle_date y m d :
  1 <= y <= 400 -> 1 <= m <= 12 -> 1 <= d <= 31 -> cycle_date_ok y m d = true.
Proof.
  intros Hy Hm Hd.
  pose proof (all_from_spec 400 1 _ y cycle_dates ltac:(lia)) as H1.
  cbv beta in H1.
  pose proof (all_from_spec 12 1 _ m H1 ltac:(lia)) as H2.
  cbv beta in H2.
  apply (all_from_spec 31 1 _ d H2). lia.
Qed.

Module datetime_facts.
Import datetime.

Lemma is_leap_shift y q : is_leap (y + 400 * q) = is_leap y.
Proof.
unfold is_leap.
replace (y + 400 * q) with (y + (100 * q) * 4) at 1 by ring.
replace (y + 400 * q) with (y + (4 * q) * 100) at 1 by ring.
replace (y + 400 * q) with (y + q * 400) by ring.
now rewrite !Z_mod_plus_full.
Qed.

Lemma days_before_year_shift y q :
days_before_year (y + 400 * q) = days_before_year y + 146097 * q.
Proof.
unfold days_before_year. cbv zeta.
replace (y + 400 * q - 1) with (y - 1 + (100 * q) * 4) at 2 by ring.
replace (y + 400 * q - 1) with (y - 1 + (4 * q) * 100) at 2 by ring.
replace (y + 400 * q - 1) with (y - 1 + q * 400) at 2 by ring.
rewrite !Z.div_add by lia. ring.
Qed.

Lemma ymd2ord_shift y m d q :
ymd2ord (y + 400 * q) m d = ymd2ord y m d + 146097 * q.
Proof.
unfold ymd2ord, days_before_month.
rewrite days_before_year_shift, is_leap_shift. ring.
Qed.

Lemma days_in_month_shift y m q :
days_in_month (y + 400 * q) m = days_in_month y m.
Proof. unfold days_in_month. now rewrite is_leap_shift. Qed.

Lemma ord2ymd_shift n q :
ord2ymd (n + 146097 * q) = shift_year q (ord2ymd n).
Proof.
unfold ord2ymd, DI400Y. cbv zeta.
replace (n + 146097 * q - 1) with (n - 1 + q * 146097) by ring.
rewrite Z.div_add, Z_mod_plus_full by lia.
set (r := (n - 1) mod 146097).
set (n100 := r / DI100Y). set (r1 := r mod DI100Y).
set (n4 := r1 / DI4Y). set (r2 := r1 mod DI4Y).
set (n1 := r2 / 365). set (r3 := r2 mod 365).
destruct ((n1 =? 4) || (n100 =? 4)); [unfold shift_year; f_equal; f_equal; ring|].
match goal with |- context [if ?c then _ else _] => destruct c end;
  unfold shift_year; f_equal; f_equal; ring.
Qed.


Lemma days_in_month_range y m : 1 <= m <= 12 -> 28 <= days_in_month y m <= 31.
Proof.
intros Hm. unfold days_in_month.
destruct ((m =? 2) && is_leap y); [lia|].
assert (Hc : m = 1 \/ m = 2 \/ m = 3 \/ m = 4 \/ m = 5 \/ m = 6 \/ m = 7 \/
             m = 8 \/ m = 9 \/ m = 10 \/ m = 11 \/ m = 12) by lia.
repeat (destruct Hc as [-> | Hc]; [vm_compute; split; discriminate|]).
subst m. vm_compute; split; discriminate.
Qed.

(** Every year lies in exactly one 400-year cycle. *)
Lemma year_in_cycle y :
exists y0 q, y = y0 + 400 * q /\ 1 <= y0 <= 400 /\ q = (y - 1) / 400.
Proof.
exists ((y - 1) mod 400 + 1), ((y - 1) / 400).
pose proof (Z.div_mod (y - 1) 400 ltac:(lia)).
pose proof (Z.mod_pos_bound (y - 1) 400 ltac:(lia)). lia.
Qed.

Ltac bool_hyps :=
repeat match goal with
       | H : (_ && _) = true |- _ => apply andb_true_iff in H as [? ?]
       | H : (_ <=? _) = true |- _ => apply Z.leb_le in H
       | H : (_ <? _) = true |- _ => apply Z.ltb_lt in H
       | H : (_ =? _) = true |- _ => apply Z.eqb_eq in H
       end.

Lemma cycle_date_spec y m d :
1 <= y <= 400 -> 1 <= m <= 12 -> 1 <= d <= days_in_month y m ->
ord2ymd (ymd2ord y m d) = (y, m, d) /\
1 <= ymd2ord y m d <= 146097 /\ (y <= 399 -> ymd2ord y m d <= 145731).
Proof.
intros Hy Hm Hd.
pose proof (days_in_month_range y m Hm) as Hdim.
pose proof (cycle_date y m d Hy Hm ltac:(lia)) as Hc.
unfold cycle_date_ok in Hc. cbv zeta in Hc.
apply orb_true_iff in Hc as [Hc|Hc]; [bool_hyps; lia|].
destruct (ord2ymd (ymd2ord y m d)) as [[y' m'] d'].
apply andb_true_iff in Hc as [Hc Hlast]. bool_hyps. subst.
repeat split; lia.
Qed.

Lemma cycle_day_spec r :
0 <= r < 146097 ->
exists y m d, ord2ymd (r + 1) = (y, m, d) /\ ymd2ord y m d = r + 1 /\
  1 <= y <= 400 /\ 1 <= m <= 12 /\ 1 <= d <= days_in_month y m /\
  (r <= 145730 -> y <= 399).
Proof.
intros Hr. pose proof (cycle_day r Hr) as Hc. unfold cycle_day_ok in Hc.
destruct (ord2ymd (r + 1)) as [[y m] d]. exists y, m, d.
apply andb_true_iff in Hc as [Hc Hlast]. bool_hyps.
repeat split; lia.
Qed.

Lemma ord2ymd_ymd2ord y m d :
1 <= m <= 12 -> 1 <= d <= days_in_month y m ->
ord2ymd (ymd2ord y m d) = (y, m, d).
Proof.
intros Hm Hd.
destruct (year_in_cycle y) as (y0 & q & -> & Hy0 & _).
rewrite days_in_month_shift in Hd.
destruct (cycle_date_spec y0 m d Hy0 Hm Hd) as (Hc & _).
rewrite ymd2ord_shift, ord2ymd_shift, Hc. reflexivity.
Qed.

Lemma ymd2ord_bounds y m d :
1 <= y <= MAXYEAR -> 1 <= m <= 12 -> 1 <= d <= days_in_month y m ->
1 <= ymd2ord y m d <= MAXORDINAL.
Proof.
intros Hy Hm Hd. unfold MAXYEAR, MAXORDINAL in *.
destruct (year_in_cycle y) as (y0 & q & -> & Hy0 & Hq).
rewrite days_in_month_shift in Hd.
destruct (cycle_date_spec y0 m d Hy0 Hm Hd) as (_ & Hb & Hlast).
rewrite ymd2ord_shift.
assert (0 <= q <= 24) by lia.
assert (q = 24 -> y0 <= 399) by lia.
lia.
Qed.

Lemma ord2ymd_spec n :
exists y m d, ord2ymd n = (y, m, d) /\
  ymd2ord y m d = n /\ 1 <= m <= 12 /\ 1 <= d <= days_in_month y m /\
  (1 <= n <= MAXORDINAL -> 1 <= y <= MAXYEAR).
Proof.
unfold MAXYEAR, MAXORDINAL.
pose proof (Z.div_mod (n - 1) 146097 ltac:(lia)) as Hdm.
pose proof (Z.mod_pos_bound (n - 1) 146097 ltac:(lia)) as Hr.
set (r := (n - 1) mod 146097) in *. set (q := (n - 1) / 146097) in *.
assert (Hn : n = r + 1 + 146097 * q) by lia.
destruct (cycle_day_spec r Hr) as (y0 & m & d & He & Ho & Hy & Hm & Hd & Hlast).
pose proof (ord2ymd_shift (r + 1) q) as Hs. rewrite <- Hn, He in Hs.
exists (y0 + 400 * q), m, d.
rewrite ymd2ord_shift, days_in_month_shift.
repeat split; try assumption; try lia.
Qed.

Lemma toordinal_bounds d : valid d -> 1 <= toordinal d <= MAXORDINAL.
Proof.
intros (Hy & Hm & Hd & _). now apply ymd2ord_bounds.
Qed.

Lemma time_of_day_rebuilt h m s :
0 <= h < 24 -> 0 <= m < 60 -> 0 <= s < 60 ->
let seconds := h * 3600 + m * 60 + s in
seconds / 3600 = h /\ seconds mod 3600 / 60 = m /\ seconds mod 3600 mod 60 = s.
Proof.
intros Hh Hm Hs seconds. subst seconds.
assert (H1 : (h * 3600 + m * 60 + s) / 3600 = h)
  by (symmetry; apply (Z.div_unique _ _ _ (m * 60 + s)); lia).
assert (H2 : (h * 3600 + m * 60 + s) mod 3600 = m * 60 + s)
  by (symmetry; apply (Z.mod_unique _ _ h); lia).
rewrite H1, H2. split; [reflexivity|]. split.
- symmetry. apply (Z.div_unique _ _ _ s); lia.
- symmetry. apply (Z.mod_unique _ _ m); lia.
Qed.

Lemma sub_days_spec d i :
valid d -> 0 <= i < toordinal d ->
exists d', sub_days d i = Some d' /\ valid d' /\
  toordinal d' = toordinal d - i /\
  hour d' = hour d /\ minute d' = minute d /\ second d' = second d /\
  microsecond d' = microsecond d.
Proof.
intros Hv Hi. pose proof (toordinal_bounds d Hv) as Hb.
destruct Hv as (Hy & Hm & Hd & Hh & Hmi & Hs & Hus).
destruct (time_of_day_rebuilt _ _ _ Hh Hmi Hs) as (E1 & E2 & E3).
destruct (ord2ymd_spec (toordinal d - i)) as (y & m & dd & He & Ho & Hm' & Hd' & Hy').
unfold sub_days. cbv zeta. rewrite E1, E2, E3, He.
replace ((0 <? toordinal d - i) && (toordinal d - i <=? MAXORDINAL)) with true
  by (symmetry; apply andb_true_iff; split; [apply Z.ltb_lt | apply Z.leb_le]; lia).
eexists. split; [reflexivity|].
unfold valid, toordinal. simpl. repeat split; try assumption; try lia.
Qed.

Lemma sub_days_0 d : valid d -> sub_days d 0 = Some d.
Proof.
intros Hv. pose proof (toordinal_bounds d Hv) as Hb.
destruct Hv as (Hy & Hm & Hd & Hh & Hmi & Hs & Hus).
destruct (time_of_day_rebuilt _ _ _ Hh Hmi Hs) as (E1 & E2 & E3).
unfold sub_days. cbv zeta. rewrite E1, E2, E3, Z.sub_0_r.
unfold toordinal at 3. rewrite ord2ymd_ymd2ord by assumption.
replace ((0 <? toordinal d) && (toordinal d <=? MAXORDINAL)) with true
  by (symmetry; apply andb_true_iff; split; [apply Z.ltb_lt | apply Z.leb_le]; lia).
destruct d; reflexivity.
Qed.

End datetime_facts.

(** ** Strings *)

Lemma append_assoc (a b c : string) : (a +:+ b) +:+ c = a +:+ (b +:+ c).
Proof. induction a as [|x a IH]; simpl; [reflexivity | now rewrite IH]. Qed.

Lemma append_nil_r (a : string) : a +:+ "" = a.
Proof. induction a as [|x a IH]; simpl; [reflexivity | now rewrite IH]. Qed.

Lemma append_one c (a : string) : String c "" +:+ a = String c a.
Proof. reflexivity. Qed.

Lemma length_append (a b : string) :
  String.length (a +:+ b) = (String.length a + String.length b)%nat.
Proof. induction a as [|x a IH]; simpl; [reflexivity | now rewrite IH]. Qed.

Lemma upper_app s t : Str.upper (s +:+ t) = Str.upper s +:+ Str.upper t.
Proof. induction s as [|c s IH]; simpl; [reflexivity | now rewrite IH]. Qed.

Lemma all_app p s t : Str.all p (s +:+ t) = Str.all p s && Str.all p t.
Proof.
  induction s as [|c s IH]; simpl; [reflexivity|].
  now rewrite IH, andb_assoc.
Qed.

Lemma upper_fixed s :
  Str.all (fun c => negb (Str.is_lower c)) s = true -> Str.upper s = s.
Proof.
  induction s as [|c s IH]; simpl; [reflexivity|].
  intros H. apply andb_true_iff in H as [Hc Hs].
  rewrite (IH Hs). unfold Str.upper_char.
  now destruct (Str.is_lower c).
Qed.

(** ** Numbers in decimal *)

Lemma digit_passes p k : digits_pass p -> 0 <= k < 10 -> p (Str.digit k) = true.
Proof.
  intros Hp Hk. unfold Str.digit.
  assert (Hn : (Z.to_nat k < 10)%nat) by lia.
  revert Hn. generalize (Z.to_nat k) as n. intros n Hn.
  unfold digits_pass in Hp. cbn [forallb DIGITS] in Hp.
  repeat match type of Hp with (_ && _) = true => apply andb_true_iff in Hp as [? Hp] end.
  do 10 (destruct n as [|n]; [assumption|]). lia.
Qed.

Lemma pretty_char_passes p k : digits_pass p -> p (pretty_N_char k) = true.
Proof.
  intros Hp. unfold digits_pass in Hp. cbn [forallb DIGITS] in Hp.
  repeat match type of Hp with (_ && _) = true => apply andb_true_iff in Hp as [? Hp] end.
  unfold pretty_N_char. repeat case_match; assumption.
Qed.

Lemma all_pretty_N_go p x :
  digits_pass p -> forall s, Str.all p s = true -> Str.all p (pretty_N_go x s) = true.
Proof.
  intros Hp. induction (N.lt_wf_0 x) as [x _ IH]. intros s Hs.
  destruct (N.eq_dec x 0%N) as [->|Hx]; [now rewrite pretty_N_go_0|].
  rewrite pretty_N_go_step by lia.
  apply IH; [apply N.div_lt; lia|].
  cbn [Str.all]. now rewrite (pretty_char_passes p _ Hp), Hs.
Qed.

Lemma all_pretty_N p (x : N) : digits_pass p -> Str.all p (pretty x) = true.
Proof.
  intros Hp. unfold pretty, pretty_N. case_decide.
  - cbn [Str.all]. rewrite andb_true_r. exact (pretty_char_passes p 0%N Hp).
  - now apply all_pretty_N_go.
Qed.

(** The characters of a number in decimal are digits, after a dash when
    it is negative. *)
Lemma all_pretty p (n : Z) :
  digits_pass p -> (n < 0 -> p "-"%char = true) -> Str.all p (pretty n) = true.
Proof.
  intros Hp Hdash. destruct n as [|x|x].
  - cbn [pretty pretty_Z Str.all]. rewrite andb_true_r.
    exact (pretty_char_passes p 0%N Hp).
  - apply (all_pretty_N p (N.pos x) Hp).
  - change (pretty (Z.neg x)) with ("-" +:+ pretty (N.pos x)).
    rewrite all_app, (all_pretty_N p (N.pos x) Hp). cbn [Str.all].
    now rewrite Hdash by lia.
Qed.

(** From 1000 to 9999 a number in decimal has its four digits. *)
Lemma four_digits :
  all_from (Z.to_nat 9000) 1000 (fun y => String.eqb (pretty y) (Str.zero_pad 4 y)) = true.
Proof. vm_compute. reflexivity. Qed.

(** From 1 to 999 it has one to three. *)
Lemma fewer_digits :
  all_from (Z.to_nat 999) 1
    (fun y => (1 <=? Str.len (pretty y)) && (Str.len (pretty y) <=? 3)) = true.
Proof. vm_compute. reflexivity. Qed.

Lemma pretty_four_digits y : 1000 <= y <= 9999 -> pretty y = Str.zero_pad 4 y.
Proof.
  intros Hy. apply String.eqb_eq.
  apply (all_from_spec 9000 1000 _ y four_digits). lia.
Qed.

Lemma pretty_year_length y :
  1 <= y <= 9999 ->
  (1 <= String.length (pretty y) <= 4)%nat /\
  (y < 1000 -> (String.length (pretty y) < 4)%nat).
Proof.
  intros Hy. destruct (Z.lt_ge_cases y 1000) as [Hlt|Hge].
  - pose proof (all_from_spec 999 1 _ y fewer_digits ltac:(lia)) as H.
    cbv beta in H. unfold Str.len in H. lia.
  - rewrite pretty_four_digits by lia. cbn. lia.
Qed.

(** ** Titles *)

Lemma digit_facts k :
  0 <= k < 10 ->
  Str.is_digit (Str.digit k) = true /\ Str.upper_char (Str.digit k) = Str.digit k /\
  Str.is_lower (Str.digit k) = false /\ not_newline (Str.digit k) = true.
Proof.
  intros Hk.
  pose proof (digit_passes Str.is_digit k eq_refl Hk) as H1.
  pose proof (digit_passes (fun c => Ascii.eqb (Str.upper_char c) c) k eq_refl Hk) as H2.
  pose proof (digit_passes (fun c => negb (Str.is_lower c)) k eq_refl Hk) as H3.
  pose proof (digit_passes not_newline k eq_refl Hk) as H4.
  cbv beta in H2, H3. apply Ascii.eqb_eq in H2. apply negb_true_iff in H3. tauto.
Qed.

Lemma mod10_range n : 0 <= n mod 10 < 10.
Proof. apply Z.mod_pos_bound. lia. Qed.


Lemma zero_pad_2 n :
  Str.zero_pad 2 n = String (Str.digit (n / 10 mod 10)) (String (Str.digit (n mod 10)) "").
Proof. reflexivity. Qed.

Lemma strftime_title d :
  datetime.strftime "%Y-%m-%d-%a" d =
  pretty (datetime.year d) +:+ "-" +:+ Str.zero_pad 2 (datetime.month d) +:+ "-"
  +:+ Str.zero_pad 2 (datetime.day d) +:+ "-"
  +:+ nth (Z.to_nat (datetime.weekday d)) datetime.abday "".
Proof.
  cbn [datetime.strftime datetime.directive Ascii.eqb Bool.eqb].
  now rewrite append_nil_r.
Qed.

Lemma upper_zero_pad w : forall n, Str.upper (Str.zero_pad w n) = Str.zero_pad w n.
Proof.
  induction w as [|w IH]; intros n; simpl; [reflexivity|].
  rewrite upper_app, IH. simpl.
  now destruct (digit_facts (n mod 10) (mod10_range n)) as (_ & -> & _).
Qed.

Lemma upper_pretty (n : Z) : Str.upper (pretty n) = pretty n.
Proof. apply upper_fixed, all_pretty; reflexivity. Qed.

Lemma weekday_range d : 0 <= datetime.weekday d < 7.
Proof. apply Z.mod_pos_bound. lia. Qed.

(** The weekday part of a title is one of the seven names, in capitals. *)
Lemma weekday_name d :
  exists k, (k < 7)%nat /\ Z.to_nat (datetime.weekday d) = k /\
    Str.upper (nth k datetime.abday "") = nth k WEEKDAYS "".
Proof.
  pose proof (weekday_range d) as Hr.
  exists (Z.to_nat (datetime.weekday d)). split; [lia|]. split; [reflexivity|].
  assert (Hn : (Z.to_nat (datetime.weekday d) < 7)%nat) by lia.
  revert Hn. generalize (Z.to_nat (datetime.weekday d)) as k. intros k Hk.
  do 7 (destruct k as [|k]; [reflexivity|]). lia.
Qed.

(** The title, part by part: the year as it is, the month and the day in
    two digits, the name of the weekday in capitals. *)
Lemma get_title_parts d :
  get_title d =
  pretty (datetime.year d) +:+ "-" +:+ Str.zero_pad 2 (datetime.month d) +:+ "-"
  +:+ Str.zero_pad 2 (datetime.day d) +:+ "-"
  +:+ nth (Z.to_nat (datetime.weekday d)) WEEKDAYS "".
Proof.
  unfold get_title. rewrite strftime_title.
  destruct (weekday_name d) as (k & _ & -> & Hk).
  rewrite !upper_app, !upper_zero_pad, upper_pretty, Hk. reflexivity.
Qed.

Lemma all_zero_pad (p : ascii -> bool) w :
  digits_pass p -> forall n, Str.all p (Str.zero_pad w n) = true.
Proof.
  intros Hp. induction w as [|w IH]; intros n; simpl; [reflexivity|].
  rewrite all_app, IH. simpl. now rewrite (digit_passes p _ Hp (mod10_range n)).
Qed.

Lemma all_weekday (p : ascii -> bool) k :
  Forall (fun s => Str.all p s = true) WEEKDAYS ->
  (k < 7)%nat -> Str.all p (nth k WEEKDAYS "") = true.
Proof.
  intros Hall Hk. rewrite Forall_forall in Hall. apply Hall.
  apply list_elem_of_In, nth_In. exact Hk.
Qed.

(** Every character of a title satisfies a test that digits, the dash
    and the capitals of the weekday names satisfy. *)
Lemma all_title (p : ascii -> bool) d :
  digits_pass p ->
  p "-"%char = true ->
  Forall (fun s => Str.all p s = true) WEEKDAYS ->
  Str.all p (get_title d) = true.
Proof.
  intros Hdig Hdash Hwd. rewrite get_title_parts.
  destruct (weekday_name d) as (k & Hk & -> & _).
  rewrite !all_app, !all_zero_pad, all_pretty, all_weekday by auto.
  simpl. now rewrite Hdash.
Qed.

Lemma title_no_newline d : Str.all not_newline (get_title d) = true.
Proof. apply all_title; [reflexivity | reflexivity | repeat constructor]. Qed.


Lemma title_no_slash d :
  Str.all (fun c => negb (Ascii.eqb c "/")) (get_title d +:+ ".md") = true.
Proof.
  rewrite all_app, all_title; [reflexivity | reflexivity | reflexivity | repeat constructor].
Qed.



(** A title is the year and ten more characters. *)
Lemma title_length d :
  String.length (get_title d)
  = (String.length (pretty (datetime.year d)) + 10)%nat.
Proof.
  rewrite get_title_parts, length_append, !zero_pad_2.
  destruct (weekday_name d) as (k & Hk & -> & _).
  f_equal.
  do 7 (destruct k as [|k]; [reflexivity|]). lia.
Qed.

Lemma title_length_bounds d :
  1 <= datetime.year d <= 9999 ->
  (11 <= String.length (get_title d) <= 14)%nat /\
  (1000 <= datetime.year d -> String.length (get_title d) = 14%nat) /\
  (datetime.year d < 1000 -> (String.length (get_title d) < 14)%nat).
Proof.
  intros Hy. rewrite title_length.
  destruct (pretty_year_length _ Hy) as (Hb & Hshort).
  split; [lia|]. split; [|intros Hlt; specialize (Hshort Hlt); lia].
  intros Hge. rewrite pretty_four_digits by lia. reflexivity.
Qed.

Lemma title_not_empty d : 0 < Str.len (get_title d).
Proof. unfold Str.len. rewrite title_length. lia. Qed.

(** ** Lines of text *)

(** A line without terminators inside, followed by [\n], is read as one
    line. *)
Lemma text_lines_line line : forall cur rest,
  Str.all not_newline line = true ->
  text_lines cur (line +:+ String LF rest)
  = (cur +:+ line +:+ String LF "") :: text_lines "" rest.
Proof.
  induction line as [|c line IH]; intros cur rest Hall.
  - reflexivity.
  - simpl in Hall. apply andb_true_iff in Hall as [Hc Hl].
    unfold not_newline in Hc. apply andb_true_iff in Hc as [H1 H2].
    apply negb_true_iff in H1, H2.
    change (String c line +:+ String LF rest) with (String c (line +:+ String LF rest)).
    cbn [text_lines]. rewrite H1, H2, IH by exact Hl.
    now rewrite append_assoc.
Qed.

Lemma length_repeat_char c n : String.length (Str.repeat (String c "") n) = n.
Proof. induction n as [|n IH]; simpl; [reflexivity | now rewrite IH]. Qed.

Lemma all_repeat_char (p : ascii -> bool) c n :
  p c = true -> Str.all p (Str.repeat (String c "") n) = true.
Proof. intros Hc. induction n as [|n IH]; simpl; [reflexivity | now rewrite Hc, IH]. Qed.

Lemma rule_length t : String.length (Str.mul "=" (Str.len t)) = String.length t.
Proof. unfold Str.mul, Str.len. now rewrite Nat2Z.id, length_repeat_char. Qed.

(** The header is read as three lines: the title, the rule and an empty
    line. *)
Lemma header_lines d :
  text_lines "" (header d)
  = [get_title d +:+ String LF ""; Str.mul "=" (Str.len (get_title d)) +:+ String LF "";
     String LF ""].
Proof.
  unfold header. rewrite append_one.
  rewrite text_lines_line by apply title_no_newline.
  rewrite text_lines_line by (apply all_repeat_char; reflexivity).
  reflexivity.
Qed.

Lemma text_lines_join lines :
  Forall (fun l => Str.all not_newline l = true) lines ->
  length (text_lines "" (join_lines lines)) = length lines.
Proof.
  induction 1 as [|l lines Hl _ IH]; simpl; [reflexivity|].
  rewrite text_lines_line by exact Hl. simpl. now rewrite IH.
Qed.

(** ** Computations *)

Ltac munfold := unfold mbind, M_bind, mret, M_ret, raise, blocked in *.

Lemma bind_ok {A B} (m : M A) (f : A -> M B) w a w1 :
  m w = (Ok a, w1) -> (m ≫= f) w = f a w1.
Proof. intros H. munfold. now rewrite H. Qed.

Lemma bind_raise {A B} (m : M A) (f : A -> M B) w e w1 :
  m w = (Raise e, w1) -> (m ≫= f) w = (Raise e, w1).
Proof. intros H. munfold. now rewrite H. Qed.

Lemma bind_blocked {A B} (m : M A) (f : A -> M B) w w1 :
  m w = (Blocked, w1) -> (m ≫= f) w = (Blocked, w1).
Proof. intros H. munfold. now rewrite H. Qed.

(** A bind that ends well went through a first part that ended well. *)
Lemma bind_inv {A B} (m : M A) (f : A -> M B) w b w2 :
  (m ≫= f) w = (Ok b, w2) -> exists a w1, m w = (Ok a, w1) /\ f a w1 = (Ok b, w2).
Proof.
  munfold. destruct (m w) as [[a|e|] w1]; intros H; try discriminate.
  now exists a, w1.
Qed.

Section KeepsFs.

Lemma keeps_ret {A} (a : A) : keeps_fs (mret a : M A).
Proof. intros w. reflexivity. Qed.

Lemma keeps_raise {A} e : keeps_fs (@raise A e).
Proof. intros w. reflexivity. Qed.

Lemma keeps_blocked {A} : keeps_fs (@blocked A).
Proof. intros w. reflexivity. Qed.

Lemma keeps_bind {A B} (m : M A) (f : A -> M B) :
  keeps_fs m -> (forall a, keeps_fs (f a)) -> keeps_fs (m ≫= f).
Proof.
  intros Hm Hf w. specialize (Hm w). munfold.
  destruct (m w) as [[a|e|] w1]; simpl in *; [|assumption..].
  rewrite <- Hm. apply Hf.
Qed.

Lemma keeps_index {A} (xs : list A) i : keeps_fs (index xs i).
Proof.
  intros w. unfold index.
  destruct (_ && _); [|reflexivity]. now destruct (xs !! _).
Qed.

Lemma keeps_for_each {A B} (f : A -> M B) xs :
  (forall x, keeps_fs (f x)) -> keeps_fs (for_each f xs).
Proof.
  intros Hf. induction xs as [|x xs IH]; simpl; [apply keeps_ret|].
  apply keeps_bind; [apply Hf|]. intros y.
  apply keeps_bind; [apply IH|]. intros ys. apply keeps_ret.
Qed.

Lemma keeps_addstr scr y x s : keeps_fs (curses.addstr scr y x s).
Proof. intros w. unfold curses.addstr. now destruct (curses.fits _ _ _ _). Qed.

Lemma keeps_open_r p : keeps_fs (open_r p).
Proof. intros w. unfold open_r. now destruct (fs w !! p) as [[c|]|]. Qed.

Lemma keeps_minus_days today i : keeps_fs (minus_days today i).
Proof. intros w. unfold minus_days. now destruct (datetime.sub_days _ _). Qed.

End KeepsFs.

Create HintDb keeps discriminated.

#[export] Hint Resolve keeps_ret keeps_raise keeps_blocked keeps_index
  keeps_addstr keeps_open_r keeps_minus_days : keeps.

(** Break a computation into its steps; the remaining goals are about
    primitive operations. *)
Ltac keeps_steps :=
  repeat first
    [ apply keeps_bind; [|intros ?]
    | apply keeps_for_each; intros ?
    | solve [auto with keeps]
    | (intros ?; reflexivity)
    | match goal with
      | |- keeps_fs (if ?b then _ else _) => destruct b
      | |- keeps_fs (match ?o with Some _ => _ | None => _ end) => destruct o
      | |- keeps_fs (let '(_, _) := ?p in _) => destruct p
      end ].

Lemma keeps_get_file_line_count p : keeps_fs (get_file_line_count p).
Proof. unfold get_file_line_count. keeps_steps. Qed.

Lemma keeps_last_week : keeps_fs last_week.
Proof. unfold last_week. keeps_steps. Qed.

Lemma keeps_scan out ds : forall fe lc, keeps_fs (scan out ds fe lc).
Proof.
  induction ds as [|d ds IH]; intros fe lc; simpl; [apply keeps_ret|].
  apply keeps_bind; [intros ?; reflexivity|]. intros e.
  apply keeps_bind; [|intros ?; apply IH].
  destruct e; [|apply keeps_ret].
  apply keeps_bind; [apply keeps_get_file_line_count | intros ?; apply keeps_ret].
Qed.

Lemma keeps_setup out : keeps_fs (setup out).
Proof.
  unfold setup. apply keeps_bind; [apply keeps_last_week|]. intros ds.
  apply keeps_bind; [apply keeps_scan | intros ?; apply keeps_ret].
Qed.

Lemma keeps_display_str st idx d : keeps_fs (display_str st idx d).
Proof. unfold display_str. keeps_steps. Qed.

Lemma keeps_draw_row scr st row : keeps_fs (draw_row scr st row).
Proof.
  unfold draw_row. destruct row as [idx d].
  apply keeps_bind; [apply keeps_display_str|]. intros s. keeps_steps.
Qed.

Lemma keeps_render scr st : keeps_fs (render scr st).
Proof.
  unfold render.
  apply keeps_bind; [intros ?; reflexivity|]. intros _.
  apply keeps_bind; [apply keeps_for_each, keeps_draw_row|]. intros _.
  keeps_steps.
Qed.

Lemma keeps_menu keys scr : forall st, keeps_fs (menu keys scr st).
Proof.
  induction keys as [|key keys IH]; intros st; simpl.
  - apply keeps_bind; [apply keeps_render | intros ?; apply keeps_blocked].
  - apply keeps_bind; [apply keeps_render|]. intros _.
    destruct (on_key _ _ _); [apply IH | keeps_steps | apply keeps_ret].
Qed.

Lemma keeps_select_date keys out scr : keeps_fs (select_date keys out scr).
Proof.
  unfold select_date.
  repeat (apply keeps_bind; [intros ?; reflexivity | intros _]).
  apply keeps_bind; [apply keeps_setup | intros st; apply keeps_menu].
Qed.

Section FsBlind.

Lemma blind_ret {A} (a : A) : fs_blind (mret a : M A).
Proof. intros w f. reflexivity. Qed.

Lemma blind_bind {A B} (m : M A) (k : A -> M B) :
  fs_blind m -> (forall a, fs_blind (k a)) -> fs_blind (m ≫= k).
Proof.
  intros Hm Hk w f. munfold. rewrite (Hm w f).
  destruct (m w) as [[a|e|] w1]; simpl; [apply Hk | reflexivity..].
Qed.

Lemma blind_index {A} (xs : list A) i : fs_blind (index xs i).
Proof.
  intros w f. unfold index.
  destruct (_ && _); [|reflexivity]. now destruct (xs !! _).
Qed.

Lemma blind_for_each {A B} (g : A -> M B) xs :
  (forall x, fs_blind (g x)) -> fs_blind (for_each g xs).
Proof.
  intros Hg. induction xs as [|x xs IH]; simpl; [apply blind_ret|].
  apply blind_bind; [apply Hg|]. intros y.
  apply blind_bind; [apply IH|]. intros ys. apply blind_ret.
Qed.

Lemma blind_addstr scr y x s : fs_blind (curses.addstr scr y x s).
Proof. intros w f. unfold curses.addstr. now destruct (curses.fits _ _ _ _). Qed.

End FsBlind.

Ltac blind_steps :=
  repeat first
    [ apply blind_bind; [|intros ?]
    | apply blind_ret
    | apply blind_index
    | apply blind_addstr
    | (intros ? ?; reflexivity)
    | match goal with
      | |- fs_blind (if ?b then _ else _) => destruct b
      end ].

Lemma blind_draw_row scr st row : fs_blind (draw_row scr st row).
Proof. unfold draw_row, display_str. destruct row as [idx d]. blind_steps. Qed.

Lemma blind_render scr st : fs_blind (render scr st).
Proof.
  unfold render.
  apply blind_bind; [intros ? ?; reflexivity|]. intros _.
  apply blind_bind; [apply blind_for_each, blind_draw_row|]. intros _.
  blind_steps.
Qed.

Lemma blind_menu keys scr : forall st, fs_blind (menu keys scr st).
Proof.
  induction keys as [|key keys IH]; intros st; simpl.
  - apply blind_bind; [apply blind_render | intros ? ? ?; reflexivity].
  - apply blind_bind; [apply blind_render|]. intros _.
    destruct (on_key _ _ _); [apply IH | blind_steps | apply blind_ret].
Qed.

(** ** Reading the journal files *)

Lemma exists_some p w n :
  fs w !! p = Some n -> os_path.exists_ p w = (Ok true, w).
Proof.
  intros H. unfold os_path.exists_. rewrite H.
  now rewrite bool_decide_eq_true_2 by eauto.
Qed.

Lemma exists_none p w :
  fs w !! p = None -> os_path.exists_ p w = (Ok false, w).
Proof.
  intros H. unfold os_path.exists_. rewrite H.
  rewrite bool_decide_eq_false_2; [reflexivity|].
  intros [x Hx]. discriminate.
Qed.

Lemma line_count_absent p w :
  fs w !! p = None -> get_file_line_count p w = (Ok 0, w).
Proof.
  intros H. unfold get_file_line_count.
  now rewrite (bind_ok _ _ _ _ _ (exists_none p w H)).
Qed.

Lemma line_count_file p w c :
  fs w !! p = Some (File c) ->
  get_file_line_count p w = (Ok (Z.of_nat (length (text_lines "" c))), w).
Proof.
  intros H. unfold get_file_line_count.
  rewrite (bind_ok _ _ _ _ _ (exists_some p w _ H)). simpl.
  unfold open_r. munfold. now rewrite H.
Qed.

Lemma line_count_dir p w :
  fs w !! p = Some Dir ->
  get_file_line_count p w = (Raise (IsADirectoryError p), w).
Proof.
  intros H. unfold get_file_line_count.
  rewrite (bind_ok _ _ _ _ _ (exists_some p w _ H)). simpl.
  unfold open_r. munfold. now rewrite H.
Qed.

Lemma last_char_cons c s :
  Str.last_char (String c s)
  = match s with EmptyString => Some c | String _ _ => Str.last_char s end.
Proof. destruct s; reflexivity. Qed.

Lemma append_not_empty cur c : String.eqb (cur +:+ String c "") "" = false.
Proof. destruct cur; reflexivity. Qed.

Lemma last_char_some s : forall a, exists c, Str.last_char (String a s) = Some c.
Proof.
  induction s as [|b s IH]; intros a; [now exists a|].
  rewrite last_char_cons. apply IH.
Qed.

(** With text to come, what was read so far does not matter. *)
Lemma open_line_any cur cur' a s :
  open_line cur (String a s) = open_line cur' (String a s).
Proof.
  unfold open_line. now destruct (last_char_some s a) as [c ->].
Qed.

Lemma open_line_cons cur c s :
  open_line cur (String c s)
  = match s with
    | EmptyString => not_newline c
    | String _ _ => open_line "" s
    end.
Proof.
  destruct s as [|a s]; [reflexivity|].
  destruct (last_char_some s a) as [x Hx].
  unfold open_line. now rewrite last_char_cons, Hx.
Qed.

Lemma open_line_cons_any cur cur' c a s :
  open_line cur (String c (String a s)) = open_line cur' (String a s).
Proof. rewrite open_line_cons. apply open_line_any. Qed.

Lemma text_lines_cons cur c s :
  text_lines cur (String c s)
  = if Ascii.eqb c LF then (cur +:+ String LF "") :: text_lines "" s
    else if Ascii.eqb c CR then
      match s with
      | String c' s'' =>
          if Ascii.eqb c' LF then (cur +:+ String LF "") :: text_lines "" s''
          else (cur +:+ String LF "") :: text_lines "" s
      | EmptyString => (cur +:+ String LF "") :: text_lines "" s
      end
    else text_lines (cur +:+ String c "") s.
Proof. reflexivity. Qed.

Lemma terminated_records_cons c s :
  terminated_records (String c s)
  = if Ascii.eqb c LF then 1 + terminated_records s
    else if Ascii.eqb c CR then
      match s with
      | String c' s'' =>
          if Ascii.eqb c' LF then 1 + terminated_records s''
          else 1 + terminated_records s
      | EmptyString => 1
      end
    else terminated_records s.
Proof. reflexivity. Qed.

(** The lines read are the terminated records and, where the text does not
    end with a terminator, one more. *)
Lemma text_lines_count s :
  (forall cur, Z.of_nat (length (text_lines cur s))
               = terminated_records s + (if open_line cur s then 1 else 0)) /\
  (forall c cur, Z.of_nat (length (text_lines cur (String c s)))
               = terminated_records (String c s)
                 + (if open_line cur (String c s) then 1 else 0)).
Proof.
  induction s as [|a s [IH1 IH2]].
  - split.
    + intros cur. unfold open_line. simpl. now destruct (String.eqb cur "").
    + intros c cur. rewrite open_line_cons. unfold not_newline.
      cbn [text_lines terminated_records].
      destruct (Ascii.eqb c LF) eqn:E1; [reflexivity|].
      destruct (Ascii.eqb c CR) eqn:E2; [reflexivity|].
      rewrite append_not_empty. reflexivity.
  - split; [exact (IH2 a)|].
    intros c cur. rewrite text_lines_cons, terminated_records_cons.
    destruct (Ascii.eqb c LF) eqn:E1.
    { cbn [length]. rewrite Nat2Z.inj_succ, (IH2 a ""), (open_line_cons_any cur ""). lia. }
    destruct (Ascii.eqb c CR) eqn:E2.
    { destruct (Ascii.eqb a LF) eqn:E3; cbn [length]; rewrite Nat2Z.inj_succ.
      - rewrite (IH1 ""), (open_line_cons_any cur ""), (open_line_cons "" a).
        destruct s; [|lia].
        unfold not_newline. rewrite E3. reflexivity.
      - rewrite (IH2 a ""), (open_line_cons_any cur ""). lia. }
    rewrite (IH2 a (cur +:+ String c "")).
    now rewrite (open_line_cons_any cur (cur +:+ String c "")).
Qed.

Lemma line_count_records c :
  Z.of_nat (length (text_lines "" c))
  = terminated_records c + (if unterminated c then 1 else 0).
Proof.
  rewrite (proj1 (text_lines_count c) "").
  unfold open_line, unterminated. now destruct (Str.last_char c).
Qed.

Lemma header_then d rest :
  text_lines "" (header d +:+ rest)
  = [get_title d +:+ String LF ""; Str.mul "=" (Str.len (get_title d)) +:+ String LF "";
     String LF ""] ++ text_lines "" rest.
Proof.
  unfold header. rewrite !append_assoc, append_one.
  change (String LF (String LF "") +:+ rest) with (String LF (String LF rest)).
  rewrite text_lines_line by apply title_no_newline.
  rewrite text_lines_line by (apply all_repeat_char; reflexivity).
  reflexivity.
Qed.

(** ** Paths *)

Lemma startswith_all (p : ascii -> bool) s c :
  Str.all p s = true -> p c = false -> Str.startswith s c = false.
Proof.
  destruct s as [|x s]; [reflexivity|]. cbn [Str.all Str.startswith].
  intros Hall Hc. apply andb_true_iff in Hall as [Hx _].
  destruct (Ascii.eqb_spec x c) as [->|]; [congruence | reflexivity].
Qed.

Lemma title_not_absolute d : Str.startswith (get_title d +:+ ".md") "/" = false.
Proof. apply (startswith_all _ _ _ (title_no_slash d)). reflexivity. Qed.

(** The journal path is the directory, a slash where one is needed, the
    title and [.md]. *)
Lemma journal_path_parts dir d :
  journal_path dir d
  = (if String.eqb dir "" || Str.endswith dir "/" then dir else dir +:+ "/")
    +:+ get_title d +:+ ".md".
Proof.
  unfold journal_path, os_path.join. rewrite title_not_absolute.
  destruct (String.eqb dir "" || Str.endswith dir "/"); [reflexivity|].
  now rewrite append_assoc.
Qed.

Lemma journal_path_not_empty dir d : String.eqb (journal_path dir d) "" = false.
Proof.
  assert (H : (0 < String.length (journal_path dir d))%nat).
  { rewrite journal_path_parts, !length_append. pose proof (title_not_empty d) as Ht.
    unfold Str.len in Ht. lia. }
  destruct (journal_path dir d); [cbn in H; lia | reflexivity].
Qed.

Lemma head_no_slash name :
  Str.all (fun c => negb (Ascii.eqb c "/")) name = true -> os_path.head name = "".
Proof.
  induction name as [|c name IH]; [reflexivity|]. cbn [Str.all os_path.head].
  intros H. apply andb_true_iff in H as [Hc Hn]. rewrite (IH Hn).
  apply negb_true_iff in Hc. now rewrite Hc.
Qed.

Lemma head_app_slash a name :
  Str.all (fun c => negb (Ascii.eqb c "/")) name = true ->
  os_path.head (a +:+ "/" +:+ name) = a +:+ "/".
Proof.
  intros Hn. induction a as [|c a IH].
  - cbn [String.append os_path.head]. now rewrite (head_no_slash name Hn).
  - change (String c a +:+ "/" +:+ name) with (String c (a +:+ "/" +:+ name)).
    cbn [os_path.head]. rewrite IH. now destruct a.
Qed.

Lemma rstrip_app_slash a : os_path.rstrip (a +:+ "/") = os_path.rstrip a.
Proof.
  induction a as [|c a IH]; [reflexivity|].
  change (String c a +:+ "/") with (String c (a +:+ "/")).
  cbn [os_path.rstrip]. now rewrite IH.
Qed.

Lemma rstrip_fixed a : Str.endswith a "/" = false -> os_path.rstrip a = a.
Proof.
  induction a as [|c a IH]; [reflexivity|].
  unfold Str.endswith. rewrite last_char_cons. cbn [os_path.rstrip].
  destruct a as [|x a].
  - intros H. cbn [os_path.rstrip]. now rewrite H.
  - intros H. now rewrite (IH H).
Qed.

(** The directory part of a journal path is the output directory, when
    that one is written without a slash at its end. *)
Lemma dirname_journal_path dir d :
  Str.endswith dir "/" = false -> os_path.dirname (journal_path dir d) = dir.
Proof.
  intros Hend. rewrite journal_path_parts, Hend, orb_false_r.
  unfold os_path.dirname. cbv zeta.
  destruct (String.eqb_spec dir "") as [->|Hne].
  - cbn [String.append]. now rewrite (head_no_slash _ (title_no_slash d)).
  - rewrite append_assoc, (head_app_slash dir _ (title_no_slash d)).
    rewrite rstrip_app_slash, (rstrip_fixed dir Hend).
    now destruct (String.eqb_spec dir "").
Qed.

(** An output directory that is there holds the journals of every date. *)
Lemma holder_journal_path f dir d :
  Str.endswith dir "/" = false -> f !! dir = Some Dir ->
  holder f (journal_path dir d) = Some Dir.
Proof.
  intros Hend Hdir. unfold holder. cbv zeta.
  rewrite (dirname_journal_path dir d Hend).
  now destruct (String.eqb (os_path.rstrip dir) "").
Qed.

(** ** Creating the journal file *)

Lemma header_chunks d :
  fold_right String.append ""
    [get_title d +:+ String LF "";
     Str.mul "=" (Str.len (get_title d)) +:+ String LF (String LF "")]
  = header d.
Proof.
  unfold header. cbn [fold_right].
  now rewrite append_nil_r, !append_assoc.
Qed.

(** [ensure_created], case by case: something is at the path; nothing is
    and the directory can take the file; nothing is and it cannot. *)
Lemma ensure_created_eq d out w :
  ensure_created d out w
  = match fs w !! journal_path out d with
    | Some _ =>
        (Ok (journal_path out d),
         with_stdout (stdout w ++ ["Opening existing journal file: " +:+ journal_path out d]) w)
    | None =>
        match holder (fs w) (journal_path out d) with
        | Some Dir =>
            (Ok (journal_path out d),
             with_stdout (stdout w ++ ["Created new journal file: " +:+ journal_path out d])
               (with_fs (<[journal_path out d := File (header d)]> (fs w)) w))
        | Some (File _) => (Raise (NotADirectoryError (journal_path out d)), w)
        | None => (Raise (FileNotFoundError (journal_path out d)), w)
        end
    end.
Proof.
  unfold ensure_created. fold (journal_path out d).
  destruct (fs w !! journal_path out d) as [n|] eqn:H.
  - now rewrite (bind_ok _ _ _ _ _ (exists_some _ w _ H)).
  - rewrite (bind_ok _ _ _ _ _ (exists_none _ w H)). cbn [negb].
    munfold. unfold open_w, print.
    rewrite journal_path_not_empty, H, header_chunks.
    now destruct (holder (fs w) (journal_path out d)) as [[c|]|].
Qed.

Lemma ensure_created_new d out w :
  fs w !! journal_path out d = None ->
  holder (fs w) (journal_path out d) = Some Dir ->
  ensure_created d out w
  = (Ok (journal_path out d),
     with_stdout (stdout w ++ ["Created new journal file: " +:+ journal_path out d])
       (with_fs (<[journal_path out d := File (header d)]> (fs w)) w)).
Proof. intros H Hh. now rewrite ensure_created_eq, H, Hh. Qed.

Lemma ensure_created_old d out w n :
  fs w !! journal_path out d = Some n ->
  ensure_created d out w
  = (Ok (journal_path out d),
     with_stdout (stdout w ++ ["Opening existing journal file: " +:+ journal_path out d]) w).
Proof. intros H. now rewrite ensure_created_eq, H. Qed.

(** Without a directory to hold the file nothing is created. *)
Lemma ensure_created_no_holder d out w :
  fs w !! journal_path out d = None ->
  holder (fs w) (journal_path out d) <> Some Dir ->
  exists e, ensure_created d out w = (Raise e, w) /\
    (holder (fs w) (journal_path out d) = None ->
     e = FileNotFoundError (journal_path out d)).
Proof.
  intros H Hh. rewrite ensure_created_eq, H.
  destruct (holder (fs w) (journal_path out d)) as [[c|]|].
  - eexists. split; [reflexivity|]. discriminate.
  - now destruct Hh.
  - eexists. split; [reflexivity|]. reflexivity.
Qed.

(** The result of [ensure_created] and the file system it leaves depend
    on the file system alone; the window is left as it is. *)
Lemma ensure_created_creation d out w :
  fst (ensure_created d out w) = fst (creation (fs w) out d) /\
  fs (snd (ensure_created d out w)) = snd (creation (fs w) out d) /\
  screen (snd (ensure_created d out w)) = screen w /\
  attr (snd (ensure_created d out w)) = attr w.
Proof.
  rewrite ensure_created_eq. unfold creation. cbv zeta.
  destruct (fs w !! journal_path out d) as [n|]; [repeat split|].
  destruct (holder (fs w) (journal_path out d)) as [[c|]|]; repeat split.
Qed.

(** ** The date window *)

Lemma minus_days_some today i d w :
  datetime.sub_days today i = Some d -> minus_days today i w = (Ok d, w).
Proof. intros H. unfold minus_days. now rewrite H. Qed.

Lemma minus_days_inv today i w r w' :
  minus_days today i w = (r, w') ->
  w' = w /\ (forall d, r = Ok d -> datetime.sub_days today i = Some d).
Proof.
  unfold minus_days. destruct (datetime.sub_days today i) as [d|]; intros H;
    inversion H; subst; split; try reflexivity; intros d' Hd; congruence.
Qed.

Lemma range_7 : range 7 = [0; 1; 2; 3; 4; 5; 6].
Proof. reflexivity. Qed.

(** A comprehension over steps that leave the world alone yields one
    element for each input and leaves the world alone. *)
Lemma for_each_inv {A B} (f : A -> M B) xs :
  (forall x w r w', f x w = (r, w') -> w' = w) ->
  forall w ys w', for_each f xs w = (Ok ys, w') ->
    w' = w /\ length ys = length xs /\
    forall i x, xs !! i = Some x -> exists y, ys !! i = Some y /\ f x w = (Ok y, w).
Proof.
  intros Hf. induction xs as [|x xs IH]; intros w ys w' H.
  - inversion H; subst. repeat split. intros i x Hx. discriminate.
  - simpl in H. apply bind_inv in H as (y & w1 & Hy & H).
    apply bind_inv in H as (ys' & w2 & Hys & H). inversion H; subst.
    pose proof (Hf _ _ _ _ Hy) as ->.
    destruct (IH _ _ _ Hys) as (-> & Hlen & Hall).
    split; [reflexivity|]. split; [simpl; now rewrite Hlen|].
    intros [|i] x' Hx'; simpl in *.
    + inversion Hx'; subst. now exists y.
    + now apply Hall.
Qed.

Lemma last_week_inv w ds w' :
  last_week w = (Ok ds, w') ->
  w' = w /\ length ds = 7%nat /\
  forall i d, ds !! i = Some d ->
    datetime.sub_days (now w) (6 - Z.of_nat i) = Some d.
Proof.
  unfold last_week. intros H.
  apply bind_inv in H as (today & w1 & Hnow & H).
  inversion Hnow; subst today w1.
  apply bind_inv in H as (ys & w2 & Hys & H). inversion H; subst.
  apply for_each_inv in Hys as (-> & Hlen & Hall);
    [|intros x w0 r w0' Hx; now apply minus_days_inv in Hx].
  split; [reflexivity|]. rewrite length_reverse. split; [exact Hlen|].
  intros i d Hd.
  assert (Hi : (i < 7)%nat) by (apply lookup_lt_Some in Hd; now rewrite length_reverse, Hlen in Hd).
  rewrite reverse_lookup in Hd by (now rewrite Hlen).
  rewrite Hlen in Hd. rewrite range_7 in Hall.
  do 7 (destruct i as [|i];
        [simpl in Hd;
         match type of Hd with
         | ys !! ?k = _ =>
             destruct (Hall k (Z.of_nat k) eq_refl) as (y & Hy1 & Hy2)
         end;
         rewrite Hy1 in Hd; inversion Hd; subst;
         apply minus_days_inv in Hy2 as (_ & Hy2); exact (Hy2 _ eq_refl)|]).
  lia.
Qed.

(** Today and the six days before it, oldest first. *)
Lemma last_week_ok w :
  datetime.valid (now w) -> 7 <= datetime.toordinal (now w) ->
  exists ds, last_week w = (Ok ds, w) /\ length ds = 7%nat /\
    ds !! 6%nat = Some (now w) /\
    forall i d, ds !! i = Some d ->
      datetime.valid d /\
      datetime.toordinal d = datetime.toordinal (now w) - 6 + Z.of_nat i /\
      datetime.hour d = datetime.hour (now w) /\
      datetime.minute d = datetime.minute (now w) /\
      datetime.second d = datetime.second (now w) /\
      datetime.microsecond d = datetime.microsecond (now w).
Proof.
  intros Hv Hord.
  pose proof (datetime_facts.sub_days_0 _ Hv) as H0.
  destruct (datetime_facts.sub_days_spec (now w) 1 Hv ltac:(lia)) as (d1 & H1 & V1 & O1 & T1).
  destruct (datetime_facts.sub_days_spec (now w) 2 Hv ltac:(lia)) as (d2 & H2 & V2 & O2 & T2).
  destruct (datetime_facts.sub_days_spec (now w) 3 Hv ltac:(lia)) as (d3 & H3 & V3 & O3 & T3).
  destruct (datetime_facts.sub_days_spec (now w) 4 Hv ltac:(lia)) as (d4 & H4 & V4 & O4 & T4).
  destruct (datetime_facts.sub_days_spec (now w) 5 Hv ltac:(lia)) as (d5 & H5 & V5 & O5 & T5).
  destruct (datetime_facts.sub_days_spec (now w) 6 Hv ltac:(lia)) as (d6 & H6 & V6 & O6 & T6).
  exists [d6; d5; d4; d3; d2; d1; now w].
  split.
  { unfold last_week, datetime_now. rewrite range_7. cbn [for_each].
    munfold. unfold minus_days. rewrite H0, H1, H2, H3, H4, H5, H6. reflexivity. }
  split; [reflexivity|]. split; [reflexivity|].
  intros i d Hd.
  do 6 (destruct i as [|i];
        [inversion Hd; subst; split; [assumption|]; split; [lia|assumption]|]).
  destruct i as [|i]; [|discriminate].
  inversion Hd; subst. split; [exact Hv|]. split; [lia|]. tauto.
Qed.

Lemma sub_days_some_inv d i d' :
  datetime.sub_days d i = Some d' -> 0 < datetime.toordinal d - i.
Proof.
  unfold datetime.sub_days. cbv zeta.
  destruct (0 <? datetime.toordinal d - i) eqn:E; [|discriminate].
  intros _. now apply Z.ltb_lt.
Qed.

(** The dates of a window that was built from a valid day are valid. *)
Lemma last_week_valid w ds :
  datetime.valid (now w) -> last_week w = (Ok ds, w) ->
  forall d, d ∈ ds -> datetime.valid d.
Proof.
  intros Hv Hds d Hd.
  destruct (last_week_inv _ _ _ Hds) as (_ & Hlen & Hsub).
  destruct (lookup_lt_is_Some_2 ds 0 ltac:(lia)) as [d0 Hd0].
  pose proof (sub_days_some_inv _ _ _ (Hsub 0%nat d0 Hd0)) as Hord.
  destruct (last_week_ok w Hv ltac:(lia)) as (ds' & Hds' & _ & _ & Hall).
  rewrite Hds in Hds'. inversion Hds'; subst ds'.
  apply list_elem_of_lookup in Hd as [i Hi].
  now destruct (Hall i d Hi).
Qed.

(** ** Sampling the journal files *)

Lemma scan_inv out ds : forall fe lc w r w',
  scan out ds fe lc w = (Ok r, w') ->
  w' = w /\
  r = (fe ++ map (row_exists w out) ds, lc ++ map (row_count w out) ds).
Proof.
  induction ds as [|d ds IH]; intros fe lc w r w' H.
  - inversion H; subst. now rewrite !app_nil_r.
  - cbn [scan] in H. fold (journal_path out d) in H.
    unfold row_exists, row_count. cbn [map].
    destruct (fs w !! journal_path out d) as [[c|]|] eqn:Hp.
    + rewrite (bind_ok _ _ _ _ _ (exists_some _ w _ Hp)) in H.
      rewrite (bind_ok _ _ _ _ _
                 (bind_ok _ _ _ _ _ (line_count_file _ w c Hp))) in H.
      apply IH in H as (-> & ->). split; [reflexivity|].
      unfold row_exists, row_count.
      rewrite bool_decide_eq_true_2 by eauto.
      now rewrite <- !app_assoc.
    + rewrite (bind_ok _ _ _ _ _ (exists_some _ w _ Hp)) in H.
      rewrite (bind_raise _ _ _ _ _
                 (bind_raise _ _ _ _ _ (line_count_dir _ w Hp))) in H.
      discriminate.
    + rewrite (bind_ok _ _ _ _ _ (exists_none _ w Hp)) in H.
      apply IH in H as (-> & ->). split; [reflexivity|].
      unfold row_exists, row_count.
      rewrite bool_decide_eq_false_2 by (intros [x Hx]; discriminate).
      now rewrite <- !app_assoc.
Qed.

(** What [setup] returns, when it returns. *)
Lemma setup_inv out w st w' :
  setup out w = (Ok st, w') ->
  w' = w /\ last_week w = (Ok (dates st), w) /\
  files_exist st = map (row_exists w out) (dates st) /\
  line_counts st = map (row_count w out) (dates st) /\
  max_row st = 6 /\ current_row st = 6 /\ seven_rows st.
Proof.
  unfold setup. intros H.
  apply bind_inv in H as (ds & w1 & Hds & H).
  destruct (last_week_inv _ _ _ Hds) as (-> & Hlen & _).
  apply bind_inv in H as (r & w2 & Hr & H).
  apply scan_inv in Hr as (-> & ->). inversion H; subst. cbn.
  rewrite Hlen. unfold seven_rows. cbn. rewrite !length_map, Hlen.
  repeat split; try reflexivity. exact Hds.
Qed.

Lemma setup_on_a_row out w st w' :
  setup out w = (Ok st, w') -> on_a_row st.
Proof.
  intros H. destruct (setup_inv _ _ _ _ H) as (_ & _ & _ & _ & Hm & Hc & Hl & _).
  unfold on_a_row. rewrite Hm, Hc, Hl. lia.
Qed.

(** ** Keys *)

Lemma ord_LF : ord LF = 10.
Proof. reflexivity. Qed.

Lemma ord_q : ord "q" = 113.
Proof. reflexivity. Qed.

Ltac on_key_cases :=
  unfold on_key, curses.KEY_UP, curses.KEY_DOWN; rewrite ord_LF, ord_q;
  repeat match goal with
         | |- context [?a =? ?b] => destruct (Z.eqb_spec a b)
         | |- context [?a <? ?b] => destruct (Z.ltb_spec a b)
         end; cbn [andb]; try first [reflexivity | discriminate | lia].




Lemma on_key_select key mr c : on_key key mr c = Select <-> key = ord LF.
Proof. rewrite ord_LF. split; [|intros ->; reflexivity]. on_key_cases. Qed.

Lemma on_key_quit key mr c : on_key key mr c = Quit <-> key = ord "q".
Proof. rewrite ord_q. split; [|intros ->; reflexivity]. on_key_cases. Qed.

(** A key that keeps the loop running is neither Enter nor [q], and moves
    the cursor by at most one row inside the rows. *)
Lemma on_key_stay key mr c c' :
  on_key key mr c = Stay c' ->
  key <> ord LF /\ key <> ord "q" /\
  (0 <= c <= mr -> 0 <= c' <= mr) /\ (c' = c \/ c' = c - 1 \/ c' = c + 1).
Proof.
  rewrite ord_LF, ord_q. on_key_cases; intros Hst; inversion Hst; subst; lia.
Qed.


(** ** Drawing *)

Lemma index_lookup {A} (xs : list A) i x w :
  0 <= i -> xs !! Z.to_nat i = Some x -> index xs i w = (Ok x, w).
Proof.
  intros Hi Hx. unfold index.
  pose proof (lookup_lt_Some _ _ _ Hx) as Hlt.
  destruct (Z.ltb_spec i 0) as [|_]; [lia|].
  destruct (Z.leb_spec 0 i) as [_|]; [|lia].
  destruct (Z.ltb_spec i (Z.of_nat (length xs))) as [_|]; [|lia].
  cbn [andb]. now rewrite Hx.
Qed.

Lemma index_in_range {A} (xs : list A) i w :
  0 <= i < Z.of_nat (length xs) ->
  exists x, xs !! Z.to_nat i = Some x /\ index xs i w = (Ok x, w).
Proof.
  intros Hi.
  destruct (lookup_lt_is_Some_2 xs (Z.to_nat i) ltac:(lia)) as [x Hx].
  exists x. split; [exact Hx|]. apply index_lookup; [lia | exact Hx].
Qed.

(** The text of a row: the title, and the count where a file exists. *)
Lemma display_str_ok st idx d w :
  seven_rows st -> 0 <= idx < 7 ->
  exists (e : bool) (c : Z),
    files_exist st !! Z.to_nat idx = Some e /\
    line_counts st !! Z.to_nat idx = Some c /\
    display_str st idx d w
    = (Ok (if e then get_title d +:+ ": " +:+ pretty c else get_title d), w) /\
    index (files_exist st) idx w = (Ok e, w).
Proof.
  intros (_ & Hfe & Hlc) Hidx.
  destruct (index_in_range (files_exist st) idx w ltac:(lia)) as (e & He & Hie).
  destruct (index_in_range (line_counts st) idx w ltac:(lia)) as (c & Hc & Hic).
  exists e, c. repeat split; try assumption.
  unfold display_str. rewrite (bind_ok _ _ _ _ _ Hie).
  destruct e; [|reflexivity].
  now rewrite (bind_ok _ _ _ _ _ Hic).
Qed.

Lemma addstr_cases scr y x s w :
  (curses.fits scr y x s = true /\
   exists w', curses.addstr scr y x s w = (Ok tt, w')) \/
  (curses.fits scr y x s = false /\
   curses.addstr scr y x s w = (Raise curses_error, w)).
Proof.
  unfold curses.addstr. destruct (curses.fits scr y x s); [left | right];
    split; eauto.
Qed.

Lemma attron_ok a w :
  curses.attron a w = (Ok tt, with_attr (Z.lor (attr w) a) w).
Proof. reflexivity. Qed.

Lemma attroff_ok a w :
  curses.attroff a w = (Ok tt, with_attr (Z.land (attr w) (Z.lnot a)) w).
Proof. reflexivity. Qed.

Lemma ret_ok {A} (a : A) w : (mret a : M A) w = (Ok a, w).
Proof. reflexivity. Qed.

Lemma fits_inv scr y x s :
  curses.fits scr y x s = true ->
  0 <= y < curses.height scr /\ 0 <= x < curses.width scr.
Proof. unfold curses.fits. intros H. lia. Qed.

(** A row is drawn, and then it lies inside the window, or drawing it
    ends in a [curses.error]. *)
Lemma draw_row_cases scr st idx d w :
  seven_rows st -> 0 <= idx < 7 ->
  exists w',
    (draw_row scr st (idx, d) w = (Ok tt, w') /\ 4 + idx < curses.height scr) \/
    draw_row scr st (idx, d) w = (Raise curses_error, w').
Proof.
  intros Hrows Hidx.
  destruct (display_str_ok st idx d w Hrows Hidx) as (e & c & _ & _ & Hs & He).
  set (s := if e then _ else _) in *.
  unfold draw_row. rewrite (bind_ok _ _ _ _ _ Hs), (bind_ok _ _ _ _ _ He).
  set (cp := if e then _ else _).
  set (text_x := (curses.width scr - Str.len s) / 2).
  assert (Htext : forall w0, exists w',
    ((curses.attron cp ≫= fun _ => curses.addstr scr (4 + idx) text_x s
        ≫= fun _ => curses.attroff cp) w0 = (Ok tt, w') /\
     4 + idx < curses.height scr) \/
    (curses.attron cp ≫= fun _ => curses.addstr scr (4 + idx) text_x s
        ≫= fun _ => curses.attroff cp) w0 = (Raise curses_error, w')).
  { intros w0. rewrite (bind_ok _ _ _ _ _ (attron_ok cp w0)).
    destruct (addstr_cases scr (4 + idx) text_x s
                (with_attr (Z.lor (attr w0) cp) w0)) as [(Hf & w1 & Ha)|(Hf & Ha)].
    - rewrite (bind_ok _ _ _ _ _ Ha). eexists. left. split; [reflexivity|].
      apply fits_inv in Hf as (Hy & Hx). lia.
    - rewrite (bind_raise _ _ _ _ _ Ha). eexists. right. reflexivity. }
  destruct (idx =? current_row st); cbv iota.
  - set (w2 := with_attr (Z.lor (attr w) (curses.color_pair 3)) w).
    destruct (addstr_cases scr (4 + idx) (text_x - 2) ">" w2)
      as [(_ & w1 & Ha)|(_ & Ha)].
    + destruct (Htext (with_attr (Z.land (attr w1) (Z.lnot (curses.color_pair 3))) w1))
        as (w' & Hres).
      exists w'.
      assert (Hblock :
        (curses.attron (curses.color_pair 3) ≫= fun _ =>
           curses.addstr scr (4 + idx) (text_x - 2) ">" ≫= fun _ =>
           curses.attroff (curses.color_pair 3)) w
        = (Ok tt, with_attr (Z.land (attr w1) (Z.lnot (curses.color_pair 3))) w1)).
      { rewrite (bind_ok _ _ _ _ _ (attron_ok _ w)). fold w2.
        now rewrite (bind_ok _ _ _ _ _ Ha). }
      now rewrite (bind_ok _ _ _ _ _ Hblock).
    + exists w2. right.
      assert (Hblock :
        (curses.attron (curses.color_pair 3) ≫= fun _ =>
           curses.addstr scr (4 + idx) (text_x - 2) ">" ≫= fun _ =>
           curses.attroff (curses.color_pair 3)) w
        = (Raise curses_error, w2)).
      { rewrite (bind_ok _ _ _ _ _ (attron_ok _ w)). fold w2.
        now rewrite (bind_raise _ _ _ _ _ Ha). }
      now rewrite (bind_raise _ _ _ _ _ Hblock).
  - destruct (Htext w) as (w' & Hres). exists w'.
    now rewrite (bind_ok _ _ _ _ _ (ret_ok tt w)).
Qed.

(** The rows are all drawn, and then the last of them lies inside the
    window, or drawing ends in a [curses.error]. *)
Lemma draw_rows_cases scr st ds : forall i w,
  seven_rows st -> 0 <= i -> i + Z.of_nat (length ds) <= 7 ->
  exists w',
    ((exists r, for_each (draw_row scr st) (enumerate i ds) w = (Ok r, w')) /\
     (ds <> [] -> 4 + (i + Z.of_nat (length ds) - 1) < curses.height scr)) \/
    for_each (draw_row scr st) (enumerate i ds) w = (Raise curses_error, w').
Proof.
  induction ds as [|d ds IH]; intros i w Hrows Hi Hlen.
  - exists w. left. split; [now exists []|]. congruence.
  - cbn [enumerate for_each]. cbn [length] in Hlen.
    destruct (draw_row_cases scr st i d w Hrows ltac:(lia)) as (w1 & [(Hd & Hy)|Hd]).
    + rewrite (bind_ok _ _ _ _ _ Hd).
      destruct (IH (i + 1) w1 Hrows ltac:(lia) ltac:(lia)) as (w2 & [((r & Hr) & Hlast)|Hr]).
      * exists w2. left. split.
        { exists (tt :: r). now rewrite (bind_ok _ _ _ _ _ Hr). }
        intros _. destruct ds as [|d' ds'].
        { cbn [length]. lia. }
        pose proof (Hlast ltac:(congruence)) as Hl.
        cbn [length] in *. lia.
      * exists w2. right. now rewrite (bind_raise _ _ _ _ _ Hr).
    + exists w1. right. now rewrite (bind_raise _ _ _ _ _ Hd).
Qed.

(** The instruction line has 54 characters and starts in column 2 of the
    last line but one: in fewer than 29 columns it runs into the last
    cell of the window. *)
Lemma instructions_need_room scr :
  curses.width scr < 29 ->
  curses.fits scr (curses.height scr - 2) 2
    "Use arrow keys to navigate, Enter to select, q to quit" = false.
Proof.
  intros Hw. unfold curses.fits.
  change (Str.len "Use arrow keys to navigate, Enter to select, q to quit") with 54.
  replace ((curses.height scr - 2) * curses.width scr)
    with (curses.height scr * curses.width scr - 2 * curses.width scr) by ring.
  destruct (Z.ltb_spec (curses.height scr * curses.width scr - 2 * curses.width scr + 2 + 54)
              (curses.height scr * curses.width scr)) as [Hlt|_]; [lia|].
  cbn [Z.eqb orb]. apply andb_false_r.
Qed.

(** In a window with fewer than 11 lines or fewer than 14 columns a
    redraw ends in a [curses.error]: in the rows when the lines are too
    few, in the instruction line at the latest when the columns are. *)
Lemma render_too_small scr st w :
  seven_rows st ->
  curses.height scr < 11 \/ curses.width scr < 14 ->
  exists w', render scr st w = (Raise curses_error, w').
Proof.
  intros Hrows Hsmall. pose proof Hrows as (Hlen & _).
  unfold render. unfold curses.clear at 1.
  destruct (draw_rows_cases scr st (dates st) 0 (with_screen [] w) Hrows
              ltac:(lia) ltac:(lia)) as (w1 & [((r & Hr) & Hlast)|Hr]).
  - assert (Hy : 4 + (0 + Z.of_nat (length (dates st)) - 1) < curses.height scr)
      by (apply Hlast; destruct (dates st); [discriminate | congruence]).
    rewrite Hlen in Hy.
    assert (Hw : curses.width scr < 29) by lia.
    exists w1. munfold. rewrite Hr. unfold curses.addstr.
    now rewrite (instructions_need_room scr Hw).
  - exists w1. munfold. now rewrite Hr.
Qed.

(** ** The menu loop *)

Lemma menu_render_raise keys scr st w e w' :
  render scr st w = (Raise e, w') -> menu keys scr st w = (Raise e, w').
Proof. intros H. destruct keys; simpl; now rewrite (bind_raise _ _ _ _ _ H). Qed.

Lemma menu_key key keys scr st w w1 :
  render scr st w = (Ok tt, w1) ->
  menu (key :: keys) scr st w
  = match on_key key (max_row st) (current_row st) with
    | Stay r => menu keys scr (set_current_row r st) w1
    | Select => (index (dates st) (current_row st) ≫= fun d => mret (Some d)) w1
    | Quit => (Ok None, w1)
    end.
Proof.
  intros H. cbn [menu]. rewrite (bind_ok _ _ _ _ _ H).
  now destruct (on_key _ _ _).
Qed.

Lemma set_current_row_same st : set_current_row (current_row st) st = st.
Proof. now destruct st. Qed.

(** The loop returns only on Enter, with the date under the cursor, or on
    [q], with nothing. *)
Lemma menu_returns keys scr : forall st w r w',
  on_a_row st ->
  menu keys scr st w = (Ok r, w') ->
  exists pre key post c,
    keys = pre ++ key :: post /\
    Forall (fun k => k <> ord LF /\ k <> ord "q") pre /\
    reachable (max_row st) (current_row st) c /\
    ((key = ord LF /\ exists d, dates st !! Z.to_nat c = Some d /\ r = Some d) \/
     (key = ord "q" /\ r = None)).
Proof.
  induction keys as [|key keys IH]; intros st w r w' Hrow H.
  - cbn [menu] in H. apply bind_inv in H as (? & ? & _ & H). discriminate.
  - pose proof H as H0. cbn [menu] in H0.
    apply bind_inv in H0 as ([] & w1 & Hrender & _).
    rewrite (menu_key _ _ _ _ _ _ Hrender) in H.
    destruct (on_key key (max_row st) (current_row st)) as [c1| |] eqn:Hk.
    + destruct (on_key_stay _ _ _ _ Hk) as (N1 & N2 & Hr & _).
      destruct Hrow as (Hc & Hm).
      destruct (IH (set_current_row c1 st) w1 r w') as (pre & k & post & c & -> & Hpre & Hreach & Hend).
      { split; cbn; [apply Hr, Hc | exact Hm]. }
      { exact H. }
      exists (key :: pre), k, post, c. split; [reflexivity|].
      split; [constructor; [split|]; assumption|].
      split; [|exact Hend].
      cbn in Hreach. eapply reach_key; eassumption.
    + apply on_key_select in Hk. destruct Hrow as (Hc & Hm).
      destruct (index_in_range (dates st) (current_row st) w1 ltac:(lia)) as (d & Hd & Hi).
      rewrite (bind_ok _ _ _ _ _ Hi) in H. inversion H; subst.
      exists [], (ord LF), keys, (current_row st).
      split; [reflexivity|]. split; [constructor|]. split; [constructor|].
      left. split; [reflexivity|]. now exists d.
    + apply on_key_quit in Hk. inversion H; subst.
      exists [], (ord "q"), keys, (current_row st).
      split; [reflexivity|]. split; [constructor|]. split; [constructor|].
      right. split; reflexivity.
Qed.

(** ** The sample run *)

Lemma valid_of_validb d : datetime.validb d = true -> datetime.valid d.
Proof.
  unfold datetime.validb, datetime.valid. intros H.
  repeat match goal with
         | H : (_ && _) = true |- _ => apply andb_true_iff in H as [H ?]
         end.
  lia.
Qed.

Example sample_setup : setup "." sample_world = (Ok sample_picker, sample_world).
Proof. vm_compute. reflexivity. Qed.

Example sample_enter :
  fst (select_date [curses.KEY_UP; curses.KEY_UP; ord LF] "." terminal sample_world)
  = Ok (Some (march 13)).
Proof. vm_compute. reflexivity. Qed.

(** ** The properties of the program *)



(** A date with a known day number has the year, month and day of that
    day. *)
Lemma ymd_of_toordinal d n :
  datetime.valid d -> datetime.toordinal d = n ->
  datetime.ord2ymd n = (datetime.year d, datetime.month d, datetime.day d).
Proof.
  intros (_ & Hm & Hd & _) <-. now apply datetime_facts.ord2ymd_ymd2ord.
Qed.

Lemma title_of_ymd d y m dd :
  datetime.valid d -> datetime.ord2ymd (datetime.toordinal d) = (y, m, dd) ->
  get_title d = get_title (datetime.mk y m dd 0 0 0 0).
Proof.
  intros Hv H. rewrite (ymd_of_toordinal d _ Hv eq_refl) in H.
  inversion H; subst. rewrite !get_title_parts.
  unfold datetime.weekday, datetime.toordinal. reflexivity.
Qed.

(** The window of Friday 2024-03-15, whatever the time of day. *)
Lemma window_of_2024_03_15 w ds :
  datetime.valid (now w) ->
  datetime.year (now w) = 2024 -> datetime.month (now w) = 3 ->
  datetime.day (now w) = 15 ->
  last_week w = (Ok ds, w) ->
  map get_title ds
  = ["2024-03-09-SAT"; "2024-03-10-SUN"; "2024-03-11-MON"; "2024-03-12-TUE";
     "2024-03-13-WED"; "2024-03-14-THU"; "2024-03-15-FRI"].
Proof.
  intros Hv Hy Hm Hd Hds.
  assert (Hord : datetime.toordinal (now w) = 738960)
    by (unfold datetime.toordinal; now rewrite Hy, Hm, Hd).
  destruct (last_week_ok w Hv ltac:(lia)) as (ds' & Hds' & Hlen & _ & Hall).
  rewrite Hds in Hds'. inversion Hds'; subst ds'. clear Hds'.
  do 7 (destruct ds as [|? ds]; [discriminate|]).
  destruct ds; [|discriminate].
  cbn [map]. rewrite Hord in Hall.
  repeat match goal with
         | |- context [get_title ?d :: _] =>
             lazymatch d with
             | datetime.mk _ _ _ _ _ _ _ => fail
             | _ => idtac
             end;
             let H := fresh in
             first [ pose proof (Hall 0%nat d eq_refl) as H
                   | pose proof (Hall 1%nat d eq_refl) as H
                   | pose proof (Hall 2%nat d eq_refl) as H
                   | pose proof (Hall 3%nat d eq_refl) as H
                   | pose proof (Hall 4%nat d eq_refl) as H
                   | pose proof (Hall 5%nat d eq_refl) as H
                   | pose proof (Hall 6%nat d eq_refl) as H ];
             destruct H as (Hvd & Hod & _);
             rewrite (title_of_ymd d _ _ _ Hvd
                        ltac:(rewrite Hod; vm_compute; reflexivity));
             clear Hvd Hod
         end.
  reflexivity.
Qed.

(** C2. The candidate window is the seven consecutive calendar days that
    end today, oldest first: the date at index [i] is a date whose day
    number is today's less [6 - i], at the same time of day, and index 6
    holds today; the cursor starts at index 6.  When today is 2024-03-15
    the window runs from 2024-03-09, a Saturday, to 2024-03-15, a
    Friday. *)
Theorem date_window (w : World)
    (Hv : datetime.valid (now w)) (Hord : 7 <= datetime.toordinal (now w)) :
  exists ds,
    last_week w = (Ok ds, w) /\ length ds = 7%nat /\
    ds !! 6%nat = Some (now w) /\
    (forall i d, ds !! i = Some d ->
       datetime.valid d /\
       datetime.toordinal d = datetime.toordinal (now w) - 6 + Z.of_nat i /\
       datetime.hour d = datetime.hour (now w) /\
       datetime.minute d = datetime.minute (now w) /\
       datetime.second d = datetime.second (now w) /\
       datetime.microsecond d = datetime.microsecond (now w)) /\
    (forall out st w', setup out w = (Ok st, w') ->
       dates st = ds /\ max_row st = 6 /\ current_row st = 6) /\
    (datetime.year (now w) = 2024 -> datetime.month (now w) = 3 ->
     datetime.day (now w) = 15 ->
     map get_title ds
     = ["2024-03-09-SAT"; "2024-03-10-SUN"; "2024-03-11-MON"; "2024-03-12-TUE";
        "2024-03-13-WED"; "2024-03-14-THU"; "2024-03-15-FRI"]).
Proof.
  destruct (last_week_ok w Hv Hord) as (ds & Hds & Hlen & H6 & Hall).
  exists ds. repeat split; try assumption; try (now apply (Hall i d)).
  - destruct (setup_inv _ _ _ _ H) as (_ & Hst & _). congruence.
  - now destruct (setup_inv _ _ _ _ H) as (_ & _ & _ & _ & ? & _).
  - now destruct (setup_inv _ _ _ _ H) as (_ & _ & _ & _ & _ & ? & _).
  - intros Hy Hm Hd. now apply (window_of_2024_03_15 w).
Qed.

Lemma date_window_witness :
  exists ds,
    last_week sample_world = (Ok ds, sample_world) /\
    ds !! 6%nat = Some friday /\
    map get_title ds
    = ["2024-03-09-SAT"; "2024-03-10-SUN"; "2024-03-11-MON"; "2024-03-12-TUE";
       "2024-03-13-WED"; "2024-03-14-THU"; "2024-03-15-FRI"].
Proof.
  destruct (date_window sample_world
              (valid_of_validb friday eq_refl) ltac:(vm_compute; discriminate))
    as (ds & Hds & _ & H6 & _ & _ & Hex).
  exists ds. split; [exact Hds|]. split; [exact H6|].
  exact (Hex eq_refl eq_refl eq_refl).
Defined.

(** C3. In the browsing state Enter makes the picker return the date of
    the row under the cursor and [q] makes it return the cancellation
    value [None]; a key handler answers [Select] only for Enter and [Quit]
    only for [q]; and whenever the loop returns, it does so on the first
    Enter or [q] among the keys, with the date under the cursor that the
    keys before it led to, or with [None]. *)
Theorem picker_returns (keys : list Z) (scr : curses.window) (st : picker)
    (w : World) (Hrow : on_a_row st) :
  (forall w1, render scr st w = (Ok tt, w1) ->
     exists d, dates st !! Z.to_nat (current_row st) = Some d /\
       menu (ord LF :: keys) scr st w = (Ok (Some d), w1) /\
       menu (ord "q" :: keys) scr st w = (Ok None, w1)) /\
  (forall key, on_key key (max_row st) (current_row st) = Select <-> key = ord LF) /\
  (forall key, on_key key (max_row st) (current_row st) = Quit <-> key = ord "q") /\
  (forall r w', menu keys scr st w = (Ok r, w') ->
     exists pre key post c,
       keys = pre ++ key :: post /\
       Forall (fun k => k <> ord LF /\ k <> ord "q") pre /\
       reachable (max_row st) (current_row st) c /\
       ((key = ord LF /\ exists d, dates st !! Z.to_nat c = Some d /\ r = Some d) \/
        (key = ord "q" /\ r = None))).
Proof.
  split.
  { intros w1 Hrender. destruct Hrow as (Hc & Hm).
    destruct (index_in_range (dates st) (current_row st) w1 ltac:(lia)) as (d & Hd & Hi).
    exists d. split; [exact Hd|].
    rewrite !(menu_key _ _ _ _ _ _ Hrender).
    rewrite (proj2 (on_key_select _ _ _) eq_refl), (proj2 (on_key_quit _ _ _) eq_refl).
    now rewrite (bind_ok _ _ _ _ _ Hi). }
  split; [intros key; apply on_key_select|].
  split; [intros key; apply on_key_quit|].
  intros r w'. now apply menu_returns.
Qed.

Lemma sample_on_a_row : on_a_row sample_picker.
Proof. unfold on_a_row. cbn. lia. Qed.

Lemma sample_render :
  render terminal sample_picker sample_world
  = (Ok tt, snd (render terminal sample_picker sample_world)).
Proof. vm_compute. reflexivity. Qed.

Lemma picker_returns_witness :
  exists d, dates sample_picker !! Z.to_nat (current_row sample_picker) = Some d /\
    menu [ord LF] terminal sample_picker sample_world
    = (Ok (Some d), snd (render terminal sample_picker sample_world)) /\
    menu [ord "q"] terminal sample_picker sample_world
    = (Ok None, snd (render terminal sample_picker sample_world)).
Proof.
  exact (proj1 (picker_returns [] terminal sample_picker sample_world sample_on_a_row)
           _ sample_render).
Defined.

(** What [ensure_created] leaves in the file system depends on the file
    system alone. *)
Lemma ensure_created_fs d out w :
  fs (snd (ensure_created d out w)) = snd (creation (fs w) out d).
Proof. apply ensure_created_creation. Qed.

Lemma ensure_created_result d out w :
  fst (ensure_created d out w) = fst (creation (fs w) out d).
Proof. apply ensure_created_creation. Qed.

(** Creating twice is creating once. *)
Lemma creation_twice f out d :
  snd (creation (snd (creation f out d)) out d) = snd (creation f out d).
Proof.
  unfold creation. cbv zeta.
  destruct (f !! journal_path out d) as [n|] eqn:H; cbn [snd]; [now rewrite H|].
  destruct (holder f (journal_path out d)) as [[c|]|] eqn:Hh; cbn [snd];
    rewrite ?lookup_insert_eq, ?H, ?Hh; reflexivity.
Qed.

(** [create_journal_file] is [ensure_created] and then the editor, when
    there is a path to run it on. *)
Lemma create_journal_file_fs vi d out w :
  fs (snd (create_journal_file vi d out w))
  = edited vi (fst (ensure_created d out w)) (fs (snd (ensure_created d out w))) /\
  fst (create_journal_file vi d out w)
  = match fst (ensure_created d out w) with
    | Ok path =>
        match vi path (fs (snd (ensure_created d out w))) with
        | Some _ => Ok path
        | None => Raise (FileNotFoundError "vi")
        end
    | Raise e => Raise e
    | Blocked => Blocked
    end /\
  screen (snd (create_journal_file vi d out w)) = screen w /\
  attr (snd (create_journal_file vi d out w)) = attr w /\
  stdout (snd (create_journal_file vi d out w)) = stdout (snd (ensure_created d out w)).
Proof.
  unfold create_journal_file.
  destruct (ensure_created_creation d out w) as (_ & _ & Hs & Ha).
  destruct (ensure_created d out w) as [[path|e|] w1] eqn:He; cbn [fst snd] in *.
  - unfold edited. munfold. rewrite He. unfold subprocess_call_vi.
    destruct (vi path (fs w1)) as [[status f]|]; cbn; repeat split; assumption.
  - rewrite (bind_raise _ _ _ _ _ He). repeat split; assumption.
  - rewrite (bind_blocked _ _ _ _ He). repeat split; assumption.
Qed.

(** C4. When nothing is at the path of the journal file of a date, and
    the directory that holds the path is there, [ensure_created] creates
    the file with exactly three lines: the title, a rule of [=] as long as
    the title, and an empty line.  When something is at the path it
    changes nothing, so a second call leaves the file system as the first
    call left it.  Without a directory to hold the file it raises and
    writes nothing; the output directory that [main] has checked is such a
    directory.  [create_journal_file] does this and then hands the path to
    the editor. *)
Theorem ensure_created_header (d : datetime.t) (out : string) (w : World) :
  (fs w !! journal_path out d = None ->
   holder (fs w) (journal_path out d) = Some Dir ->
     exists w1, ensure_created d out w = (Ok (journal_path out d), w1) /\
       fs w1 = <[journal_path out d := File (header d)]> (fs w) /\
       text_lines "" (header d)
       = [get_title d +:+ String LF "";
          Str.mul "=" (Str.len (get_title d)) +:+ String LF "";
          String LF ""] /\
       String.length (Str.mul "=" (Str.len (get_title d)))
       = String.length (get_title d) /\
       Str.all (fun c => Ascii.eqb c "=") (Str.mul "=" (Str.len (get_title d))) = true) /\
  (forall n, fs w !! journal_path out d = Some n ->
     exists w1, ensure_created d out w = (Ok (journal_path out d), w1) /\
       fs w1 = fs w) /\
  fs (snd (ensure_created d out (snd (ensure_created d out w))))
  = fs (snd (ensure_created d out w)) /\
  (fs w !! journal_path out d = None ->
   holder (fs w) (journal_path out d) <> Some Dir ->
     exists e, ensure_created d out w = (Raise e, w) /\
       (holder (fs w) (journal_path out d) = None ->
        e = FileNotFoundError (journal_path out d))) /\
  (Str.endswith out "/" = false -> fs w !! out = Some Dir ->
     holder (fs w) (journal_path out d) = Some Dir) /\
  (forall vi, fs (snd (create_journal_file vi d out w))
              = edited vi (fst (ensure_created d out w))
                  (fs (snd (ensure_created d out w)))).
Proof.
  split.
  { intros H Hh. eexists. split; [apply (ensure_created_new d out w H Hh)|].
    split; [reflexivity|]. split; [apply header_lines|].
    split; [apply rule_length|]. apply all_repeat_char. reflexivity. }
  split.
  { intros n H. eexists. split; [apply (ensure_created_old d out w n H)|]. reflexivity. }
  split.
  { rewrite (ensure_created_fs d out (snd _)), (ensure_created_fs d out w).
    apply creation_twice. }
  split; [apply ensure_created_no_holder|].
  split; [intros Hend Hdir; now apply holder_journal_path|].
  intros vi. apply create_journal_file_fs.
Qed.

Lemma ensure_created_header_witness :
  exists w1, ensure_created friday "." sample_world = (Ok "./2024-03-15-FRI.md", w1) /\
    fs w1 = <["./2024-03-15-FRI.md" := File (header friday)]> sample_fs.
Proof.
  destruct (proj1 (ensure_created_header friday "." sample_world) eq_refl eq_refl)
    as (w1 & H1 & H2 & _).
  exists w1. split; [exact H1 | exact H2].
Defined.





(** The claim that the count is the number of newline-terminated records
    fails on a file whose last line is not terminated: the file [abc]
    has no such record and counts as one line. *)
Lemma line_count_unterminated :
  let w := with_fs (<["notes.md" := File "abc"]> ∅) sample_world in
  get_file_line_count "notes.md" w = (Ok 1, w) /\
  terminated_records "abc" = 0 /\
  ~ (forall w p c, fs w !! p = Some (File c) ->
       get_file_line_count p w = (Ok (terminated_records c), w)).
Proof.
  cbv zeta.
  assert (H : get_file_line_count "notes.md"
                (with_fs (<["notes.md" := File "abc"]> ∅) sample_world)
              = (Ok 1, with_fs (<["notes.md" := File "abc"]> ∅) sample_world)).
  { now rewrite (line_count_file "notes.md" _ "abc" (lookup_insert_eq _ _ _)). }
  split; [exact H|]. split; [reflexivity|].
  intros Hall.
  rewrite (Hall _ "notes.md" "abc" (lookup_insert_eq _ _ _)) in H.
  discriminate.
Qed.

Lemma length_join_lines lines :
  Forall (fun l => Str.all not_newline l = true) lines ->
  forall d,
    Z.of_nat (length (text_lines "" (header d +:+ join_lines lines)))
    = 3 + Z.of_nat (length lines).
Proof.
  intros Hl d. rewrite header_then, length_app, (text_lines_join lines Hl).
  cbn [length]. lia.
Qed.

(** C6, amended.  [get_file_line_count] returns 0 when nothing is at the
    path.  For a file it returns the number of lines with no header
    adjustment: the newline-terminated records and, when the text ends in
    an unterminated line, that line too; so for a text that ends with a
    terminator (or is empty) it is the number of newline-terminated
    records.  After [N] lines are written behind the header of a freshly
    created file (one that [ensure_created] has made in a directory that
    is there) the count is [3 + N]. *)
Theorem line_count_lines (w : World) (p : string) :
  (fs w !! p = None -> get_file_line_count p w = (Ok 0, w)) /\
  (forall c, fs w !! p = Some (File c) ->
     get_file_line_count p w
     = (Ok (terminated_records c + (if unterminated c then 1 else 0)), w) /\
     (unterminated c = false ->
      get_file_line_count p w = (Ok (terminated_records c), w))) /\
  (forall d out lines,
     p = journal_path out d -> fs w !! p = None ->
     holder (fs w) p = Some Dir ->
     Forall (fun l => Str.all not_newline l = true) lines ->
     let w1 := snd (ensure_created d out w) in
     fst (ensure_created d out w) = Ok p /\
     fs w1 !! p = Some (File (header d)) /\
     let w2 := with_fs (<[p := File (header d +:+ join_lines lines)]> (fs w1)) w1 in
     get_file_line_count p w2 = (Ok (3 + Z.of_nat (length lines)), w2)).
Proof.
  split; [apply line_count_absent|].
  split.
  { intros c Hc. rewrite (line_count_file p w c Hc), line_count_records.
    split; [reflexivity|]. intros ->. now rewrite Z.add_0_r. }
  intros d out lines -> Hp Hh Hl. cbv zeta.
  rewrite (ensure_created_new d out w Hp Hh). cbn [fst snd fs with_stdout with_fs].
  split; [reflexivity|]. split; [apply lookup_insert_eq|].
  rewrite (line_count_file _ _ _ (lookup_insert_eq _ _ _)).
  now rewrite (length_join_lines lines Hl).
Qed.

Lemma line_count_lines_witness :
  let w1 := snd (ensure_created friday "." sample_world) in
  let p := journal_path "." friday in
  let w2 := with_fs (<[p := File (header friday +:+ join_lines ["went for a walk"; "read"])]>
                       (fs w1)) w1 in
  get_file_line_count p w2 = (Ok (3 + 2), w2).
Proof.
  exact (proj2 (proj2 (proj2 (proj2 (line_count_lines sample_world (journal_path "." friday)))
                         friday "." ["went for a walk"; "read"] eq_refl eq_refl eq_refl
                         ltac:(repeat constructor)))).
Defined.

(** C7. For a date of the window whose journal file exists, the row holds
    the number of lines of the file less 3, and the row shows the title,
    a colon and that number as it is: with fewer than three lines in the
    file the number is negative. *)
Theorem row_line_count (out : string) (w w' : World) (st : picker)
    (idx : nat) (d : datetime.t) (c : string)
    (Hsetup : setup out w = (Ok st, w'))
    (Hd : dates st !! idx = Some d)
    (Hc : fs w !! journal_path out d = Some (File c)) :
  let n := Z.of_nat (length (text_lines "" c)) in
  files_exist st !! idx = Some true /\
  line_counts st !! idx = Some (n - 3) /\
  display_str st (Z.of_nat idx) d w' = (Ok (get_title d +:+ ": " +:+ pretty (n - 3)), w') /\
  (n < 3 -> n - 3 < 0).
Proof.
  intros n.
  destruct (setup_inv _ _ _ _ Hsetup) as (-> & _ & Hfe & Hlc & _ & _ & Hrows).
  assert (He : files_exist st !! idx = Some true).
  { rewrite Hfe, list_lookup_fmap, Hd. cbn. unfold row_exists.
    now rewrite bool_decide_eq_true_2 by (rewrite Hc; eauto). }
  assert (Hn : line_counts st !! idx = Some (n - 3)).
  { rewrite Hlc, list_lookup_fmap, Hd. cbn. unfold row_count. now rewrite Hc. }
  split; [exact He|]. split; [exact Hn|]. split; [|lia].
  unfold display_str.
  rewrite (bind_ok _ _ _ _ _
             (index_lookup (files_exist st) (Z.of_nat idx) true w ltac:(lia)
                ltac:(now rewrite Nat2Z.id))).
  now rewrite (bind_ok _ _ _ _ _
                 (index_lookup (line_counts st) (Z.of_nat idx) (n - 3) w ltac:(lia)
                    ltac:(now rewrite Nat2Z.id))).
Qed.

Lemma row_line_count_witness :
  line_counts sample_picker !! 5%nat = Some (-2) /\
  display_str sample_picker 5 (march 14) sample_world
  = (Ok "2024-03-14-THU: -2", sample_world).
Proof.
  pose proof (row_line_count "." sample_world sample_world sample_picker 5 (march 14)
                (String "x" (String LF "")) sample_setup eq_refl eq_refl)
    as (_ & Hn & Hs & _).
  split; [exact Hn | exact Hs].
Defined.

(** ** The whole program *)

Lemma isdir_dir p w : fs w !! p = Some Dir -> os_path.isdir p w = (Ok true, w).
Proof. intros H. unfold os_path.isdir. now rewrite H. Qed.

(** [main] with [--select] in an existing directory: the picker runs
    under the wrapper, and its result decides what follows. *)
Lemma main_select vi args keys term w :
  select args = true -> fs w !! out args = Some Dir ->
  main vi args keys term w
  = (curses.wrapper term (select_date keys (out args)) ≫= fun selected_date =>
       (match selected_date with
        | None => sys_exit 0
        | Some d => mret d
        end) ≫= fun date =>
       create_journal_file vi date (out args) ≫= fun _ => mret tt) w.
Proof.
  intros Hs Hd. unfold main. rewrite Hs.
  rewrite (bind_ok _ _ _ _ _ (isdir_dir _ _ Hd)). cbn [negb].
  rewrite (bind_ok _ _ _ _ _ (ret_ok tt w)).
  munfold. destruct (curses.wrapper _ _ w) as [[[d|]|e|] w1]; reflexivity.
Qed.

Lemma wrapper_result {A} term (f : curses.window -> M A) w :
  fst (curses.wrapper term f w) = fst (f term w) /\
  fs (snd (curses.wrapper term f w)) = fs (snd (f term w)).
Proof. unfold curses.wrapper. now destruct (f term w). Qed.

(** C8. When the picker is run and ends on [q], that is returns the
    cancellation value, the program exits with status 0 and the file
    system is as it was: no file is created or changed, and the editor is
    not started. *)
Theorem quit_exits_cleanly (vi : string -> gmap string node -> option (Z * gmap string node))
    (args : Args) (keys : list Z) (term : curses.window) (w : World)
    (Hsel : select args = true)
    (Hdir : fs w !! out args = Some Dir)
    (Hquit : fst (select_date keys (out args) term w) = Ok None) :
  exists w', main vi args keys term w = (Raise (SystemExit 0), w') /\
    exit_status (fst (main vi args keys term w)) = Some 0 /\
    fs w' = fs w.
Proof.
  rewrite (main_select vi args keys term w Hsel Hdir).
  destruct (wrapper_result term (select_date keys (out args)) w) as (Hr & Hf).
  rewrite Hquit in Hr. rewrite keeps_select_date in Hf.
  destruct (curses.wrapper term (select_date keys (out args)) w) as [r w1] eqn:Hw.
  cbn in Hr, Hf. subst r.
  exists w1. rewrite (bind_ok _ _ _ _ _ Hw).
  split; [reflexivity|]. split; [reflexivity | exact Hf].
Qed.

Lemma quit_exits_cleanly_witness :
  exists w', main marking_editor sample_args [curses.KEY_UP; ord "q"] terminal sample_world
             = (Raise (SystemExit 0), w') /\
    exit_status (fst (main marking_editor sample_args [curses.KEY_UP; ord "q"] terminal
                        sample_world)) = Some 0 /\
    fs w' = fs sample_world.
Proof.
  apply (quit_exits_cleanly marking_editor sample_args [curses.KEY_UP; ord "q"]
           terminal sample_world eq_refl eq_refl).
  vm_compute. reflexivity.
Defined.

(** In a window of five lines the second row cannot be drawn: the picker
    ends in a [curses.error] before it reads the [q], and the program
    with it. *)
Lemma draw_error_ends_picker :
  fst (select_date [ord "q"] "." short_terminal sample_world) = Raise curses_error /\
  exit_status (fst (main marking_editor sample_args [ord "q"] short_terminal sample_world))
  = Some 1 /\
  ~ (forall keys out scr w, fst (select_date keys out scr w) <> Raise curses_error).
Proof.
  assert (H : fst (select_date [ord "q"] "." short_terminal sample_world)
              = Raise curses_error) by (vm_compute; reflexivity).
  split; [exact H|]. split; [vm_compute; reflexivity|].
  intros Hall. exact (Hall _ _ _ _ H).
Qed.

(** C9, amended.  The picker does not catch drawing errors.  In a window
    of fewer than 11 lines or fewer than 14 columns a redraw of the seven
    rows ends in a [curses.error]; the loop ends with that error before it
    reads a key, whatever the keys are, and so does [select_date] once its
    rows are set up. *)
Theorem draw_error_not_caught (keys : list Z) (scr : curses.window)
    (st : picker) (w : World)
    (Hrows : seven_rows st)
    (Hsmall : curses.height scr < 11 \/ curses.width scr < 14) :
  (exists w', render scr st w = (Raise curses_error, w')) /\
  (exists w', menu keys scr st w = (Raise curses_error, w')) /\
  (forall out w0 w1,
     setup out (with_screen [] w0) = (Ok st, w1) ->
     exists w', select_date keys out scr w0 = (Raise curses_error, w')).
Proof.
  assert (Hmenu : forall w0, exists w', menu keys scr st w0 = (Raise curses_error, w')).
  { intros w0. destruct (render_too_small scr st w0 Hrows Hsmall) as (w' & Hr).
    exists w'. now apply menu_render_raise. }
  split; [apply (render_too_small scr st w Hrows Hsmall)|].
  split; [apply Hmenu|].
  intros out w0 w1 Hsetup. destruct (Hmenu w1) as (w' & Hm).
  exists w'. unfold select_date.
  rewrite (bind_ok _ _ _ _ _ (ret_ok tt w0)).
  assert (Hclear : curses.clear w0 = (Ok tt, with_screen [] w0)) by reflexivity.
  rewrite (bind_ok _ _ _ _ _ Hclear).
  do 5 rewrite (bind_ok _ _ _ _ _ (ret_ok tt _)).
  now rewrite (bind_ok _ _ _ _ _ Hsetup).
Qed.

Lemma sample_seven_rows : seven_rows sample_picker.
Proof. repeat split. Qed.

Lemma draw_error_not_caught_witness :
  exists w', menu [curses.KEY_UP; ord LF] short_terminal sample_picker sample_world
             = (Raise curses_error, w').
Proof.
  exact (proj1 (proj2 (draw_error_not_caught [curses.KEY_UP; ord LF] short_terminal
                         sample_picker sample_world sample_seven_rows
                         ltac:(left; vm_compute; reflexivity)))).
Defined.

(** C10. Running the picker leaves the file system as it found it,
    however it ends and whatever the keys and the files are.  The files
    are sampled before the loop: the loop itself never looks at the file
    system.  When the picker returns a date, the file system that [main]
    leaves is the one that creating the journal file of that date, and
    the editor when it is run, make of the initial one. *)
Theorem picker_keeps_files (keys : list Z) (dir : string)
    (scr : curses.window) (w : World) :
  fs (snd (select_date keys dir scr w)) = fs w /\
  (forall st f, menu keys scr st (with_fs f w)
                = (fst (menu keys scr st w), with_fs f (snd (menu keys scr st w)))) /\
  (forall vi args d,
     select args = true -> dir = out args -> fs w !! dir = Some Dir ->
     fst (select_date keys dir scr w) = Ok (Some d) ->
     fs (snd (main vi args keys scr w))
     = edited vi (fst (ensure_created d dir w)) (fs (snd (ensure_created d dir w)))).
Proof.
  split; [apply keeps_select_date|].
  split; [intros st f; apply blind_menu|].
  intros vi args d Hsel -> Hdir Hret.
  rewrite (main_select vi args keys scr w Hsel Hdir).
  destruct (wrapper_result scr (select_date keys (out args)) w) as (Hr & Hf).
  rewrite Hret in Hr. rewrite keeps_select_date in Hf.
  destruct (curses.wrapper scr (select_date keys (out args)) w) as [r w1] eqn:Hw.
  cbn in Hr, Hf. subst r.
  rewrite (bind_ok _ _ _ _ _ Hw), (bind_ok _ _ _ _ _ (ret_ok d w1)).
  destruct (create_journal_file_fs vi d (out args) w1) as (Hfs & _).
  rewrite !ensure_created_fs, !ensure_created_result, Hf in Hfs.
  rewrite !ensure_created_fs, !ensure_created_result, <- Hfs.
  munfold. now destruct (create_journal_file vi d (out args) w1) as [[r|e|] w2].
Qed.

Lemma picker_keeps_files_witness :
  fs (snd (main marking_editor sample_args [ord LF] terminal sample_world))
  = edited marking_editor (fst (ensure_created friday "." sample_world))
      (fs (snd (ensure_created friday "." sample_world))).
Proof.
  apply (proj2 (proj2 (picker_keeps_files [ord LF] "." terminal sample_world))
           marking_editor sample_args friday eq_refl eq_refl eq_refl).
  vm_compute. reflexivity.
Defined.

(** ** Further properties of the program *)

Lemma isdir_other p w :
  fs w !! p <> Some Dir -> os_path.isdir p w = (Ok false, w).
Proof.
  intros H. unfold os_path.isdir.
  destruct (fs w !! p) as [[c|]|]; try reflexivity. now destruct H.
Qed.

(** X1. When the output directory is missing, or is a file, [main] prints
    the error message and exits with status 1: it creates no file, does
    not run the picker or the editor, and reads no key. *)
Theorem main_missing_directory (vi : string -> gmap string node -> option (Z * gmap string node))
    (args : Args) (keys : list Z) (term : curses.window) (w : World)
    (Hdir : fs w !! out args <> Some Dir) :
  main vi args keys term w
  = (Raise (SystemExit 1),
     with_stdout
       (stdout w ++ ["Error: Output directory '" +:+ out args +:+ "' does not exist."]) w) /\
  exit_status (fst (main vi args keys term w)) = Some 1 /\
  fs (snd (main vi args keys term w)) = fs w.
Proof.
  assert (H : main vi args keys term w
              = (Raise (SystemExit 1),
                 with_stdout
                   (stdout w ++ ["Error: Output directory '" +:+ out args
                                 +:+ "' does not exist."]) w)).
  { unfold main. rewrite (bind_ok _ _ _ _ _ (isdir_other _ _ Hdir)). reflexivity. }
  rewrite H. repeat split.
Qed.

Lemma main_missing_directory_witness :
  exit_status (fst (main marking_editor {| out := "journals"; select := true |}
                      [ord LF] terminal sample_world)) = Some 1 /\
  fs (snd (main marking_editor {| out := "journals"; select := true |}
             [ord LF] terminal sample_world)) = fs sample_world.
Proof.
  exact (proj2 (main_missing_directory marking_editor
                  {| out := "journals"; select := true |} [ord LF] terminal
                  sample_world ltac:(vm_compute; discriminate))).
Defined.

(** X2. Without [--select], in an existing directory that holds the
    journal path, [main] does not run the picker: whatever the keys and
    the terminal, it creates the journal file of today when nothing is at
    its path, leaves what is there otherwise, says which on standard
    output and runs the editor on that path.  With an editor it ends with
    status 0, whatever the status of the editor; without one it ends in
    [FileNotFoundError], status 1, after the file was created. *)
Theorem main_today (vi : string -> gmap string node -> option (Z * gmap string node))
    (args : Args) (keys : list Z) (term : curses.window) (w : World)
    (Hsel : select args = false)
    (Hdir : fs w !! out args = Some Dir)
    (Hhold : holder (fs w) (journal_path (out args) (now w)) = Some Dir) :
  let path := journal_path (out args) (now w) in
  let created := match fs w !! path with
                 | None => <[path := File (header (now w))]> (fs w)
                 | Some _ => fs w
                 end in
  fst (main vi args keys term w)
  = match vi path created with
    | Some _ => Ok tt
    | None => Raise (FileNotFoundError "vi")
    end /\
  exit_status (fst (main vi args keys term w))
  = Some (match vi path created with Some _ => 0 | None => 1 end) /\
  fs (snd (main vi args keys term w))
  = match vi path created with Some (_, f) => f | None => created end /\
  stdout (snd (main vi args keys term w))
  = stdout w ++ [match fs w !! path with
                 | None => "Created new journal file: " +:+ path
                 | Some _ => "Opening existing journal file: " +:+ path
                 end] /\
  screen (snd (main vi args keys term w)) = screen w.
Proof.
  cbv zeta.
  assert (H : main vi args keys term w
              = (create_journal_file vi (now w) (out args) ≫= fun _ => mret tt) w).
  { unfold main. rewrite Hsel.
    rewrite (bind_ok _ _ _ _ _ (isdir_dir _ _ Hdir)). cbn [negb].
    rewrite (bind_ok _ _ _ _ _ (ret_ok tt w)).
    assert (Hnow : datetime_now w = (Ok (now w), w)) by reflexivity.
    now rewrite (bind_ok _ _ _ _ _ Hnow). }
  rewrite H. clear H.
  destruct (create_journal_file_fs vi (now w) (out args) w) as (Hfs & Hr & Hscr & _ & Hout).
  assert (He : ensure_created (now w) (out args) w
               = (Ok (journal_path (out args) (now w)),
                  with_stdout
                    (stdout w ++ [match fs w !! journal_path (out args) (now w) with
                                  | None => "Created new journal file: "
                                            +:+ journal_path (out args) (now w)
                                  | Some _ => "Opening existing journal file: "
                                              +:+ journal_path (out args) (now w)
                                  end])
                    (with_fs (match fs w !! journal_path (out args) (now w) with
                              | None => <[journal_path (out args) (now w)
                                          := File (header (now w))]> (fs w)
                              | Some _ => fs w
                              end) w))).
  { rewrite ensure_created_eq, Hhold.
    destruct (fs w !! journal_path (out args) (now w)); [|reflexivity].
    now destruct w. }
  rewrite He in Hfs, Hr, Hout. cbn [fst snd fs stdout with_fs with_stdout edited] in *.
  set (created := match fs w !! journal_path (out args) (now w) with
                  | None => _ | Some _ => _ end) in *.
  munfold.
  destruct (create_journal_file vi (now w) (out args) w) as [[r|e|] w1];
    cbn [fst snd] in *;
    destruct (vi (journal_path (out args) (now w)) created) as [[status f]|];
    try discriminate; inversion Hr; subst; repeat split; assumption.
Qed.

Lemma main_today_witness :
  fs (snd (main marking_editor {| out := "."; select := false |} [] short_terminal
             sample_world))
  = <["./2024-03-15-FRI.md" := File "edited"]>
      (<["./2024-03-15-FRI.md" := File (header friday)]> sample_fs) /\
  exit_status (fst (main no_editor {| out := "."; select := false |} [] short_terminal
                      sample_world)) = Some 1.
Proof.
  split.
  - exact (proj1 (proj2 (proj2 (main_today marking_editor {| out := "."; select := false |}
                                  [] short_terminal sample_world eq_refl eq_refl eq_refl)))).
  - exact (proj1 (proj2 (main_today no_editor {| out := "."; select := false |}
                           [] short_terminal sample_world eq_refl eq_refl eq_refl))).
Defined.

(** X3. [ensure_created] touches nothing but the path of the journal
    file: every other path holds what it held, and what is at the path of
    the journal, a file of any content or a directory, stays as it is. *)
Theorem ensure_created_frame (d : datetime.t) (dir : string) (w : World)
    (p : string) (Hp : p <> journal_path dir d) :
  fs (snd (ensure_created d dir w)) !! p = fs w !! p /\
  (forall n, fs w !! journal_path dir d = Some n ->
             fs (snd (ensure_created d dir w)) !! journal_path dir d = Some n).
Proof.
  rewrite ensure_created_fs. unfold creation. cbv zeta. split.
  - destruct (fs w !! journal_path dir d); [reflexivity|].
    destruct (holder (fs w) (journal_path dir d)) as [[c|]|]; cbn [snd];
      [reflexivity | | reflexivity].
    now rewrite lookup_insert_ne by congruence.
  - intros n Hn. now rewrite Hn.
Qed.

Lemma ensure_created_frame_witness :
  fs (snd (ensure_created friday "." sample_world)) !! "./2024-03-14-THU.md"
  = fs sample_world !! "./2024-03-14-THU.md".
Proof.
  exact (proj1 (ensure_created_frame friday "." sample_world "./2024-03-14-THU.md"
                  ltac:(vm_compute; discriminate))).
Defined.

(** X4. For a journal that starts with the header this program writes,
    the number the picker shows is the number of lines that follow the
    header: the adjustment by 3 takes off exactly the header. *)
Theorem row_counts_lines_after_header (dir : string) (w w' : World) (st : picker)
    (idx : nat) (d : datetime.t) (rest : string)
    (Hsetup : setup dir w = (Ok st, w'))
    (Hd : dates st !! idx = Some d)
    (Hfile : fs w !! journal_path dir d = Some (File (header d +:+ rest))) :
  line_counts st !! idx = Some (Z.of_nat (length (text_lines "" rest))) /\
  files_exist st !! idx = Some true.
Proof.
  destruct (setup_inv _ _ _ _ Hsetup) as (_ & _ & Hfe & Hlc & _).
  split.
  - rewrite Hlc, list_lookup_fmap, Hd. cbn. unfold row_count.
    rewrite Hfile, header_then, length_app. cbn [length]. f_equal. lia.
  - rewrite Hfe, list_lookup_fmap, Hd. cbn. unfold row_exists.
    now rewrite bool_decide_eq_true_2 by (rewrite Hfile; eauto).
Qed.

Example written_setup : setup "." written_world = (Ok written_picker, written_world).
Proof. vm_compute. reflexivity. Qed.

Lemma row_counts_lines_after_header_witness :
  line_counts written_picker !! 6%nat = Some (Z.of_nat (length (text_lines "" (join_lines ["walk"; "read"])))).
Proof.
  exact (proj1 (row_counts_lines_after_header "." written_world written_world
                  written_picker 6 friday (join_lines ["walk"; "read"])
                  written_setup eq_refl eq_refl)).
Defined.

(** *** The picker changes nothing but the window *)

Lemma wrapper_world {A} term (f : curses.window -> M A) w :
  curses.wrapper term f w
  = (fst (f term w), with_attr 0 (with_screen [] (snd (f term w)))).
Proof. unfold curses.wrapper. now destruct (f term w). Qed.

Section WindowOnly.

Lemma wo_ret {A} (a : A) : window_only (mret a : M A).
Proof. intros w. repeat split. Qed.

Lemma wo_raise {A} e : window_only (@raise A e).
Proof. intros w. repeat split. Qed.

Lemma wo_blocked {A} : window_only (@blocked A).
Proof. intros w. repeat split. Qed.

Lemma wo_bind {A B} (m : M A) (f : A -> M B) :
  window_only m -> (forall a, window_only (f a)) -> window_only (m ≫= f).
Proof.
  intros Hm Hf w. destruct (Hm w) as (H1 & H2 & H3). munfold.
  destruct (m w) as [[a|e|] w1]; cbn [snd] in *; [|repeat split; assumption..].
  destruct (Hf a w1) as (F1 & F2 & F3). repeat split; congruence.
Qed.

Lemma wo_index {A} (xs : list A) i : window_only (index xs i).
Proof.
  intros w. unfold index.
  destruct (_ && _); [|repeat split]. destruct (xs !! _); repeat split.
Qed.

Lemma wo_for_each {A B} (f : A -> M B) xs :
  (forall x, window_only (f x)) -> window_only (for_each f xs).
Proof.
  intros Hf. induction xs as [|x xs IH]; simpl; [apply wo_ret|].
  apply wo_bind; [apply Hf|]. intros y.
  apply wo_bind; [apply IH|]. intros ys. apply wo_ret.
Qed.

Lemma wo_addstr scr y x s : window_only (curses.addstr scr y x s).
Proof. intros w. unfold curses.addstr. destruct (curses.fits _ _ _ _); repeat split. Qed.

Lemma wo_open_r p : window_only (open_r p).
Proof. intros w. unfold open_r. destruct (fs w !! p) as [[c|]|]; repeat split. Qed.

Lemma wo_minus_days today i : window_only (minus_days today i).
Proof. intros w. unfold minus_days. destruct (datetime.sub_days _ _); repeat split. Qed.

End WindowOnly.

Ltac wo_steps :=
  repeat first
    [ apply wo_bind; [|intros ?]
    | apply wo_for_each; intros ?
    | apply wo_ret | apply wo_raise | apply wo_blocked | apply wo_index
    | apply wo_addstr | apply wo_open_r | apply wo_minus_days
    | match goal with
      | |- window_only (if ?b then _ else _) => destruct b
      | |- window_only (match ?o with Some _ => _ | None => _ end) => destruct o
      end
    | solve [intros ?; repeat split] ].

Lemma wo_scan dir ds : forall fe lc, window_only (scan dir ds fe lc).
Proof.
  induction ds as [|d ds IH]; intros fe lc; cbn [scan]; [apply wo_ret|].
  apply wo_bind; [intros ?; repeat split|]. intros e.
  apply wo_bind; [|intros ?; apply IH].
  destruct e; [|apply wo_ret].
  unfold get_file_line_count. wo_steps.
Qed.

Lemma wo_render scr st : window_only (render scr st).
Proof.
  unfold render.
  apply wo_bind; [intros ?; repeat split|]. intros _.
  apply wo_bind.
  { apply wo_for_each. intros [idx d]. unfold draw_row, display_str. wo_steps. }
  intros _. wo_steps.
Qed.

Lemma wo_menu keys scr : forall st, window_only (menu keys scr st).
Proof.
  induction keys as [|key keys IH]; intros st; simpl.
  - apply wo_bind; [apply wo_render | intros ?; apply wo_blocked].
  - apply wo_bind; [apply wo_render|]. intros _.
    destruct (on_key _ _ _); [apply IH | wo_steps | apply wo_ret].
Qed.

(** X5. The picker writes nothing to standard output and leaves the
    clock and the file system alone, however it ends: only the window
    changes.  So does [main] when the picker is cancelled: nothing is
    printed. *)
Theorem picker_touches_window_only (keys : list Z) (dir : string)
    (scr : curses.window) (w : World) :
  stdout (snd (select_date keys dir scr w)) = stdout w /\
  now (snd (select_date keys dir scr w)) = now w /\
  fs (snd (select_date keys dir scr w)) = fs w /\
  (forall vi args, select args = true -> dir = out args ->
     fs w !! dir = Some Dir ->
     fst (select_date keys dir scr w) = Ok None ->
     stdout (snd (main vi args keys scr w)) = stdout w).
Proof.
  assert (Hwo : window_only (select_date keys dir scr)).
  { unfold select_date.
    repeat (apply wo_bind; [intros ?; repeat split | intros _]).
    apply wo_bind; [|intros st; apply wo_menu].
    unfold setup, last_week.
    apply wo_bind; [wo_steps|]. intros ds.
    apply wo_bind; [apply wo_scan | intros ?; apply wo_ret]. }
  destruct (Hwo w) as (H1 & H2 & H3).
  split; [exact H2|]. split; [exact H3|]. split; [exact H1|].
  intros vi args Hsel -> Hdir Hquit.
  rewrite (main_select vi args keys scr w Hsel Hdir).
  pose proof (wrapper_world scr (select_date keys (out args)) w) as Hw.
  rewrite Hquit in Hw. now rewrite (bind_ok _ _ _ _ _ Hw).
Qed.

Lemma picker_touches_window_only_witness :
  stdout (snd (main marking_editor sample_args [curses.KEY_UP; ord "q"] terminal
                 sample_world)) = stdout sample_world.
Proof.
  apply (proj2 (proj2 (proj2 (picker_touches_window_only [curses.KEY_UP; ord "q"] "."
                                terminal sample_world)))
           marking_editor sample_args eq_refl eq_refl eq_refl).
  vm_compute. reflexivity.
Defined.

(** *** Sampling succeeds unless a directory is in the way *)

Lemma scan_ok dir ds : forall fe lc w,
  (forall d, d ∈ ds -> fs w !! journal_path dir d <> Some Dir) ->
  scan dir ds fe lc w
  = (Ok (fe ++ map (row_exists w dir) ds, lc ++ map (row_count w dir) ds), w).
Proof.
  induction ds as [|d ds IH]; intros fe lc w Hno.
  - cbn. now rewrite !app_nil_r.
  - cbn [scan map]. fold (journal_path dir d).
    assert (Hrest : forall d', d' ∈ ds -> fs w !! journal_path dir d' <> Some Dir)
      by (intros d' Hd'; apply Hno; now right).
    pose proof (Hno d ltac:(left)) as Hd.
    unfold row_exists at 1, row_count at 1.
    destruct (fs w !! journal_path dir d) as [[c|]|] eqn:Hp; [|now destruct Hd|].
    + rewrite (bind_ok _ _ _ _ _ (exists_some _ w _ Hp)).
      rewrite (bind_ok _ _ _ _ _ (bind_ok _ _ _ _ _ (line_count_file _ w c Hp))).
      cbv beta.
      rewrite (IH _ _ w Hrest), bool_decide_eq_true_2 by eauto.
      now rewrite <- !app_assoc.
    + rewrite (bind_ok _ _ _ _ _ (exists_none _ w Hp)).
      rewrite (bind_ok _ _ _ _ _ (ret_ok (lc ++ [0]) w)).
      rewrite (IH _ _ w Hrest), bool_decide_eq_false_2 by (intros [x Hx]; discriminate).
      now rewrite <- !app_assoc.
Qed.

Lemma scan_dir dir ds : forall fe lc w,
  (exists d, d ∈ ds /\ fs w !! journal_path dir d = Some Dir) ->
  exists d, d ∈ ds /\ fs w !! journal_path dir d = Some Dir /\
    scan dir ds fe lc w = (Raise (IsADirectoryError (journal_path dir d)), w).
Proof.
  induction ds as [|d ds IH]; intros fe lc w (d0 & Hin & Hd0).
  - inversion Hin.
  - cbn [scan]. fold (journal_path dir d).
    assert (Htail : fs w !! journal_path dir d <> Some Dir ->
                    exists d1, d1 ∈ ds /\ fs w !! journal_path dir d1 = Some Dir).
    { intros Hne. apply elem_of_cons in Hin as [->|Hin]; [congruence|]. eauto. }
    destruct (fs w !! journal_path dir d) as [[c|]|] eqn:Hp.
    + rewrite (bind_ok _ _ _ _ _ (exists_some _ w _ Hp)).
      rewrite (bind_ok _ _ _ _ _ (bind_ok _ _ _ _ _ (line_count_file _ w c Hp))).
      cbv beta.
      destruct (IH (fe ++ [true]) (lc ++ [Z.of_nat (length (text_lines "" c)) - 3]) w
                  (Htail ltac:(discriminate))) as (d1 & H1 & H2 & H3).
      exists d1. split; [now right|]. split; [exact H2 | exact H3].
    + exists d. split; [left|]. split; [exact Hp|].
      rewrite (bind_ok _ _ _ _ _ (exists_some _ w _ Hp)).
      now rewrite (bind_raise _ _ _ _ _ (bind_raise _ _ _ _ _ (line_count_dir _ w Hp))).
    + rewrite (bind_ok _ _ _ _ _ (exists_none _ w Hp)).
      rewrite (bind_ok _ _ _ _ _ (ret_ok (lc ++ [0]) w)).
      destruct (IH (fe ++ [false]) (lc ++ [0]) w (Htail ltac:(discriminate)))
        as (d1 & H1 & H2 & H3).
      exists d1. split; [now right|]. split; [exact H2 | exact H3].
Qed.

Lemma select_date_setup keys dir scr w :
  select_date keys dir scr w
  = (setup dir ≫= fun st => menu keys scr st) (with_screen [] w).
Proof. reflexivity. Qed.

(** [setup] on a valid day with its window free of directories. *)
Lemma setup_ok dir w ds :
  last_week w = (Ok ds, w) ->
  (forall d, d ∈ ds -> fs w !! journal_path dir d <> Some Dir) ->
  setup dir w
  = (Ok {| dates := ds; files_exist := map (row_exists w dir) ds;
           line_counts := map (row_count w dir) ds;
           max_row := Z.of_nat (length ds) - 1;
           current_row := Z.of_nat (length ds) - 1 |}, w).
Proof.
  intros Hds Hno. unfold setup.
  rewrite (bind_ok _ _ _ _ _ Hds).
  now rewrite (bind_ok _ _ _ _ _ (scan_ok dir ds [] [] w Hno)).
Qed.

Lemma for_each_minus_days today l :
  exists r, forall w, for_each (fun i => minus_days today i) l w = (r, w).
Proof.
  induction l as [|i l [r Hr]]; [now exists (Ok [])|].
  destruct (datetime.sub_days today i) as [d|] eqn:E.
  - exists (match r with
            | Ok ys => Ok (d :: ys)
            | Raise e => Raise e
            | Blocked => Blocked
            end).
    intros w. cbn [for_each].
    rewrite (bind_ok _ _ _ _ _ (minus_days_some _ _ _ w E)).
    munfold. rewrite Hr. now destruct r.
  - exists (Raise OverflowError). intros w. cbn [for_each].
    munfold. unfold minus_days. now rewrite E.
Qed.

(** The window depends on the clock alone. *)
Lemma last_week_screen w s ds :
  last_week w = (Ok ds, w) -> last_week (with_screen s w) = (Ok ds, with_screen s w).
Proof.
  unfold last_week, datetime_now. munfold. cbn [now with_screen].
  destruct (for_each_minus_days (now w) (range 7)) as [r Hr].
  rewrite !Hr. destruct r; intros H; inversion H; subst; reflexivity.
Qed.

(** X6. When a directory sits at the path of a journal of the window,
    the picker ends in [IsADirectoryError] for that path before it draws
    a row: the path exists, so its lines are counted, and a directory
    cannot be opened for reading. *)
Theorem picker_directory_in_the_way (keys : list Z) (dir : string)
    (scr : curses.window) (w : World) (ds : list datetime.t) (d : datetime.t)
    (Hds : last_week w = (Ok ds, w))
    (Hin : d ∈ ds)
    (Hd : fs w !! journal_path dir d = Some Dir) :
  exists d', d' ∈ ds /\ fs w !! journal_path dir d' = Some Dir /\
    select_date keys dir scr w
    = (Raise (IsADirectoryError (journal_path dir d')), with_screen [] w).
Proof.
  destruct (scan_dir dir ds [] [] (with_screen [] w) (ex_intro _ d (conj Hin Hd)))
    as (d' & Hin' & Hd' & Hscan).
  exists d'. split; [exact Hin'|]. split; [exact Hd'|].
  assert (Hsetup : setup dir (with_screen [] w)
                   = (Raise (IsADirectoryError (journal_path dir d')), with_screen [] w)).
  { unfold setup. rewrite (bind_ok _ _ _ _ _ (last_week_screen w [] ds Hds)).
    now rewrite (bind_raise _ _ _ _ _ Hscan). }
  rewrite select_date_setup. now rewrite (bind_raise _ _ _ _ _ Hsetup).
Qed.

Lemma picker_directory_in_the_way_witness :
  exists d', d' ∈ dates sample_picker /\
    fs blocked_world !! journal_path "." d' = Some Dir /\
    select_date [ord LF] "." terminal blocked_world
    = (Raise (IsADirectoryError (journal_path "." d')), with_screen [] blocked_world).
Proof.
  exact (picker_directory_in_the_way [ord LF] "." terminal blocked_world
           (dates sample_picker) (march 12)
           ltac:(vm_compute; reflexivity) ltac:(repeat constructor)
           ltac:(vm_compute; reflexivity)).
Defined.

(** *** A redraw in a window with room *)

Lemma attr_off_world s w : attr w = 0 -> with_attr 0 (with_screen s w) = with_screen s w.
Proof. destruct w. cbn. now intros ->. Qed.

Lemma half_bounds a : 4 <= a -> 2 <= a / 2 /\ a / 2 < a.
Proof.
  intros Ha. pose proof (Z.div_mod a 2 ltac:(lia)).
  pose proof (Z.mod_pos_bound a 2 ltac:(lia)). lia.
Qed.

Lemma row_text_display st idx d w :
  seven_rows st -> 0 <= idx < 7 ->
  display_str st idx d w = (Ok (row_text st idx d), w) /\
  exists e, index (files_exist st) idx w = (Ok e, w) /\
    row_pair st idx = (if e then curses.color_pair 2 else curses.color_pair 1).
Proof.
  intros Hrows Hidx.
  destruct (display_str_ok st idx d w Hrows Hidx) as (e & c & He & Hc & Hs & Hi).
  unfold row_text, row_pair. rewrite He, Hc. split.
  - rewrite Hs. now destruct e.
  - exists e. split; [exact Hi|]. now destruct e.
Qed.

Lemma row_text_not_empty st idx d : 0 < Str.len (row_text st idx d).
Proof.
  pose proof (title_not_empty d) as Ht. unfold row_text, Str.len in *.
  destruct (files_exist st !! Z.to_nat idx) as [[|]|];
    destruct (line_counts st !! Z.to_nat idx);
    rewrite ?length_append; lia.
Qed.

Lemma fits_row scr y x s :
  0 <= y -> y + 1 <= curses.height scr -> 0 <= x -> 0 < Str.len s ->
  x + Str.len s < curses.width scr ->
  curses.fits scr y x s = true.
Proof.
  intros Hy Hh Hx Hs Hw. unfold curses.fits.
  assert (Hmul : (y + 1) * curses.width scr <= curses.height scr * curses.width scr)
    by (apply Z.mul_le_mono_nonneg_r; lia).
  repeat (apply andb_true_iff; split); lia.
Qed.

Lemma addstr_fits scr y x s w :
  curses.fits scr y x s = true ->
  curses.addstr scr y x s w
  = (Ok tt, with_screen (screen w ++ [Build_Draw y x s (attr w)]) w).
Proof. intros H. unfold curses.addstr. now rewrite H. Qed.

(** An attribute switched on from none and off again leaves none. *)
Lemma attr_on_off a : Z.land (Z.lor 0 a) (Z.lnot a) = 0.
Proof. rewrite Z.lor_0_l. apply Z.land_lnot_diag. Qed.

Lemma draw_world a s w :
  attr w = 0 -> with_attr 0 (with_screen s (with_attr a w)) = with_screen s w.
Proof. destruct w. cbn. now intros ->. Qed.

(** One row drawn in a window with room, from attributes off: the row's
    draws are added and the attributes are off again. *)
Lemma draw_row_roomy scr st idx d w :
  seven_rows st -> 0 <= idx < 7 -> attr w = 0 ->
  11 <= curses.height scr ->
  Str.len (row_text st idx d) + 4 <= curses.width scr ->
  draw_row scr st (idx, d) w
  = (Ok tt, with_screen (screen w ++ row_draws scr st (idx, d)) w).
Proof.
  intros Hrows Hidx Hattr Hh Hw.
  destruct (row_text_display st idx d w Hrows Hidx) as (Hs & e & He & Hpair).
  pose proof (row_text_not_empty st idx d) as Hlen.
  destruct (half_bounds (curses.width scr - Str.len (row_text st idx d)) ltac:(lia))
    as (Hx1 & Hx2).
  unfold draw_row, row_draws.
  rewrite (bind_ok _ _ _ _ _ Hs), (bind_ok _ _ _ _ _ He), Hpair.
  set (s := row_text st idx d) in *.
  set (x := (curses.width scr - Str.len s) / 2) in *.
  set (cp := if e then curses.color_pair 2 else curses.color_pair 1).
  assert (Htext : forall w0, attr w0 = 0 ->
    (curses.attron cp ≫= fun _ => curses.addstr scr (4 + idx) x s
       ≫= fun _ => curses.attroff cp) w0
    = (Ok tt, with_screen (screen w0 ++ [Build_Draw (4 + idx) x s cp]) w0)).
  { intros w0 H0. rewrite (bind_ok _ _ _ _ _ (attron_ok cp w0)).
    rewrite (bind_ok _ _ _ _ _
               (addstr_fits scr (4 + idx) x s _
                  (fits_row scr (4 + idx) x s ltac:(lia) ltac:(lia) ltac:(lia)
                     ltac:(lia) ltac:(lia)))).
    rewrite attroff_ok. cbn [attr with_attr with_screen screen].
    now rewrite H0, attr_on_off, Z.lor_0_l, draw_world. }
  destruct (idx =? current_row st); cbv iota.
  - assert (Harrow :
      (curses.attron (curses.color_pair 3) ≫= fun _ =>
         curses.addstr scr (4 + idx) (x - 2) ">" ≫= fun _ =>
         curses.attroff (curses.color_pair 3)) w
      = (Ok tt, with_screen
                  (screen w ++ [Build_Draw (4 + idx) (x - 2) ">" (curses.color_pair 3)]) w)).
    { rewrite (bind_ok _ _ _ _ _ (attron_ok _ w)).
      rewrite (bind_ok _ _ _ _ _
                 (addstr_fits scr (4 + idx) (x - 2) ">" _
                    (fits_row scr (4 + idx) (x - 2) ">" ltac:(lia) ltac:(lia) ltac:(lia)
                       ltac:(change (Str.len ">") with 1; lia)
                       ltac:(change (Str.len ">") with 1; lia)))).
      rewrite attroff_ok. cbn [attr with_attr with_screen screen].
      now rewrite Hattr, attr_on_off, Z.lor_0_l, draw_world. }
    rewrite (bind_ok _ _ _ _ _ Harrow), Htext by exact Hattr.
    cbn [screen with_screen]. rewrite <- app_assoc. now destruct w.
  - rewrite (bind_ok _ _ _ _ _ (ret_ok tt w)), Htext by exact Hattr. reflexivity.
Qed.

Lemma draw_rows_roomy scr st ds : forall i w,
  seven_rows st -> attr w = 0 -> 0 <= i -> i + Z.of_nat (length ds) <= 7 ->
  11 <= curses.height scr ->
  (forall k d, ds !! k = Some d ->
     Str.len (row_text st (i + Z.of_nat k) d) + 4 <= curses.width scr) ->
  exists r,
    for_each (draw_row scr st) (enumerate i ds) w
    = (Ok r, with_screen (screen w ++ flat_map (row_draws scr st) (enumerate i ds)) w).
Proof.
  induction ds as [|d ds IH]; intros i w Hrows Hattr Hi Hlen Hh Hw.
  - exists []. cbn. rewrite app_nil_r. now destruct w.
  - cbn [length] in Hlen. cbn [enumerate for_each flat_map].
    pose proof (Hw 0%nat d eq_refl) as Hw0. rewrite Z.add_0_r in Hw0.
    rewrite (bind_ok _ _ _ _ _
               (draw_row_roomy scr st i d w Hrows ltac:(lia) Hattr Hh Hw0)).
    destruct (IH (i + 1) (with_screen (screen w ++ row_draws scr st (i, d)) w)
                Hrows Hattr ltac:(lia) ltac:(lia) Hh) as (r & Hr).
    { intros k d' Hd'. replace (i + 1 + Z.of_nat k) with (i + Z.of_nat (S k)) by lia.
      now apply Hw. }
    exists (tt :: r). rewrite (bind_ok _ _ _ _ _ Hr).
    cbn [screen with_screen]. now rewrite <- app_assoc.
Qed.

Lemma render_roomy scr st w :
  seven_rows st -> roomy scr st -> attr w = 0 ->
  render scr st w = (Ok tt, with_screen (expected_screen scr st) w).
Proof.
  intros Hrows (Hh & Hw & Htext) Hattr. pose proof Hrows as (Hlen & _).
  unfold render, expected_screen.
  assert (Hclear : curses.clear w = (Ok tt, with_screen [] w)) by reflexivity.
  rewrite (bind_ok _ _ _ _ _ Hclear).
  destruct (draw_rows_roomy scr st (dates st) 0 (with_screen [] w) Hrows Hattr
              ltac:(lia) ltac:(lia) Hh) as (r & Hr).
  { intros k d Hd. rewrite Z.add_0_l. now apply Htext. }
  rewrite (bind_ok _ _ _ _ _ Hr). cbn [screen with_screen app].
  set (rows := flat_map (row_draws scr st) (enumerate 0 (dates st))).
  assert (Hfits : curses.fits scr (curses.height scr - 2) 2
                    "Use arrow keys to navigate, Enter to select, q to quit" = true).
  { unfold curses.fits.
    change (Str.len "Use arrow keys to navigate, Enter to select, q to quit") with 54.
    lia. }
  rewrite (bind_ok _ _ _ _ _ (addstr_fits _ _ _ _ _ Hfits)).
  cbn [screen with_screen attr]. rewrite Hattr. reflexivity.
Qed.

(** X7. In a window with room (11 lines, 29 columns and four columns
    more than the longest row) and with attributes off, a redraw
    succeeds and leaves exactly this on the window: for each row, top
    down from line 4, its text centred, in colour pair 2 when the file
    exists and 1 when not, with the arrow in pair 3 two columns to the
    left on the selected row only; then the instructions at column 2 of
    the last line but one.  Attributes are off again afterwards. *)
Theorem redraw_in_roomy_window (scr : curses.window) (st : picker) (w : World)
    (Hrows : seven_rows st) (Hroom : roomy scr st) (Hattr : attr w = 0) :
  render scr st w = (Ok tt, with_screen (expected_screen scr st) w) /\
  attr (snd (render scr st w)) = 0 /\
  length (expected_screen scr st)
  = if (0 <=? current_row st) && (current_row st <? 7) then 9%nat else 8%nat.
Proof.
  rewrite (render_roomy scr st w Hrows Hroom Hattr).
  split; [reflexivity|]. split; [exact Hattr|].
  destruct Hrows as (Hlen & _). unfold expected_screen.
  destruct (dates st) as [|d0 [|d1 [|d2 [|d3 [|d4 [|d5 [|d6 [|]]]]]]]]; try discriminate.
  rewrite length_app. cbn [enumerate flat_map row_draws length].
  rewrite !length_app. cbn [length Z.add].
  repeat match goal with
         | |- context [?a =? current_row st] => destruct (Z.eqb_spec a (current_row st))
         end;
    repeat match goal with
           | |- context [?a <=? ?b] => destruct (Z.leb_spec a b)
           | |- context [?a <? ?b] => destruct (Z.ltb_spec a b)
           end; cbn; try reflexivity; lia.
Qed.

Lemma sample_roomy : roomy terminal sample_picker.
Proof.
  split; [cbn; lia|]. split; [cbn; lia|].
  intros idx d Hd.
  do 7 (destruct idx as [|idx]; [inversion Hd; subst; vm_compute; discriminate|]).
  inversion Hd.
Qed.

Lemma redraw_in_roomy_window_witness :
  render terminal sample_picker sample_world
  = (Ok tt, with_screen (expected_screen terminal sample_picker) sample_world).
Proof.
  exact (proj1 (redraw_in_roomy_window terminal sample_picker sample_world
                  sample_seven_rows sample_roomy eq_refl)).
Defined.

(** *** The menu loop in a window with room *)

Lemma menu_roomy keys scr : forall st w,
  seven_rows st -> on_a_row st -> roomy scr st -> attr w = 0 ->
  let v := verdict_of keys (max_row st) (current_row st) in
  menu keys scr st w
  = (match v with
     | Waiting _ => Blocked
     | Chosen c => Ok (dates st !! Z.to_nat c)
     | Cancelled _ => Ok None
     end,
     with_screen (expected_screen scr (set_current_row (cursor_of v) st)) w).
Proof.
  induction keys as [|key keys IH]; intros st w Hrows Hrow Hroom Hattr; cbv zeta.
  - cbn [menu verdict_of cursor_of].
    rewrite (bind_ok _ _ _ _ _ (render_roomy scr st w Hrows Hroom Hattr)).
    now rewrite set_current_row_same.
  - rewrite (menu_key _ _ _ _ _ _ (render_roomy scr st w Hrows Hroom Hattr)).
    cbn [verdict_of].
    destruct (on_key key (max_row st) (current_row st)) as [c1| |] eqn:Hk.
    + destruct (on_key_stay _ _ _ _ Hk) as (_ & _ & Hr & _). destruct Hrow as (Hc & Hm).
      rewrite (IH (set_current_row c1 st)
                 (with_screen (expected_screen scr st) w) Hrows
                 (conj (Hr Hc) Hm) Hroom Hattr).
      reflexivity.
    + destruct Hrow as (Hc & Hm).
      destruct (index_in_range (dates st) (current_row st)
                  (with_screen (expected_screen scr st) w) ltac:(lia)) as (d & Hd & Hi).
      rewrite (bind_ok _ _ _ _ _ Hi). cbn [cursor_of].
      now rewrite Hd, set_current_row_same.
    + cbn [cursor_of]. now rewrite set_current_row_same.
Qed.

(** X8. In a window with room the menu loop is decided by the keys
    alone: it follows the cursor through the keys that move it, returns
    the date under the cursor at the first Enter, returns nothing at the
    first [q], and waits when the keys run out before either; it never
    ends in an error, and the window then shows the rows with the arrow on
    the final cursor row. *)
Theorem picker_in_roomy_window (keys : list Z) (scr : curses.window)
    (st : picker) (w : World)
    (Hrows : seven_rows st) (Hrow : on_a_row st)
    (Hroom : roomy scr st) (Hattr : attr w = 0) :
  let v := verdict_of keys (max_row st) (current_row st) in
  menu keys scr st w
  = (match v with
     | Waiting _ => Blocked
     | Chosen c => Ok (dates st !! Z.to_nat c)
     | Cancelled _ => Ok None
     end,
     with_screen (expected_screen scr (set_current_row (cursor_of v) st)) w) /\
  0 <= cursor_of v <= max_row st /\
  is_Some (dates st !! Z.to_nat (cursor_of v)) /\
  (Forall (fun k => k <> ord LF /\ k <> ord "q") keys -> v = Waiting (cursor_of v)).
Proof.
  cbv zeta. split; [now apply menu_roomy|].
  assert (Hv : forall ks c, 0 <= c <= max_row st ->
            0 <= cursor_of (verdict_of ks (max_row st) c) <= max_row st /\
            (Forall (fun k => k <> ord LF /\ k <> ord "q") ks ->
             verdict_of ks (max_row st) c
             = Waiting (cursor_of (verdict_of ks (max_row st) c)))).
  { induction ks as [|k ks IHk]; intros c Hc; cbn [verdict_of].
    - split; [exact Hc | reflexivity].
    - destruct (on_key k (max_row st) c) as [c1| |] eqn:Hk.
      + destruct (on_key_stay _ _ _ _ Hk) as (_ & _ & Hr & _).
        destruct (IHk c1 (Hr Hc)) as (H1 & H2). split; [exact H1|].
        intros Hall. apply H2. now inversion Hall.
      + split; [exact Hc|]. intros Hall. apply on_key_select in Hk.
        inversion Hall as [|? ? [Hne _] _]. congruence.
      + split; [exact Hc|]. intros Hall. apply on_key_quit in Hk.
        inversion Hall as [|? ? [_ Hne] _]. congruence. }
  destruct Hrow as (Hc & Hm). destruct (Hv keys (current_row st) Hc) as (H1 & H2).
  split; [exact H1|]. split; [|exact H2].
  apply lookup_lt_is_Some_2. lia.
Qed.

Lemma picker_in_roomy_window_witness :
  menu [curses.KEY_UP; curses.KEY_UP; ord LF; ord "q"] terminal sample_picker sample_world
  = (Ok (Some (march 13)),
     with_screen (expected_screen terminal (set_current_row 4 sample_picker)) sample_world).
Proof.
  exact (proj1 (picker_in_roomy_window
                  [curses.KEY_UP; curses.KEY_UP; ord LF; ord "q"] terminal
                  sample_picker sample_world sample_seven_rows sample_on_a_row
                  sample_roomy eq_refl)).
Defined.

(** *** Confirming today in a directory without journals *)

Lemma none_not_dir dir w ds :
  Forall (fun d => fs w !! journal_path dir d = None) ds ->
  forall d, d ∈ ds -> fs w !! journal_path dir d <> Some Dir.
Proof.
  intros Hall d Hd. rewrite Forall_forall in Hall. rewrite (Hall d Hd). discriminate.
Qed.

Lemma no_rows_exist dir w ds :
  Forall (fun d => fs w !! journal_path dir d = None) ds ->
  map (row_exists w dir) ds = map (fun _ => false) ds.
Proof.
  induction 1 as [|d ds Hd _ IH]; [reflexivity|]. cbn [map].
  rewrite IH. f_equal. unfold row_exists. rewrite Hd.
  apply bool_decide_eq_false_2. intros [x Hx]. discriminate.
Qed.

Lemma row_text_no_file st idx d :
  files_exist st !! Z.to_nat idx <> Some true -> row_text st idx d = get_title d.
Proof.
  intros H. unfold row_text.
  destruct (files_exist st !! Z.to_nat idx) as [[|]|]; try reflexivity.
  now destruct H.
Qed.

(** X9. [--select] in a directory where the window has no journal, in a
    window of at least 11 lines and 29 columns: Enter as the first key
    selects today, and [main] creates exactly today's journal with the
    header, says so on standard output and runs the editor on its path.
    With an editor it ends with status 0; without one it ends in
    [FileNotFoundError], status 1, the journal created all the same.  The
    terminal is out of curses mode. *)
Theorem confirm_creates_todays_journal
    (vi : string -> gmap string node -> option (Z * gmap string node))
    (args : Args) (keys : list Z) (term : curses.window) (w : World)
    (ds : list datetime.t)
    (Hsel : select args = true)
    (Hdir : fs w !! out args = Some Dir)
    (Hhold : holder (fs w) (journal_path (out args) (now w)) = Some Dir)
    (Hvalid : datetime.valid (now w))
    (Hds : last_week w = (Ok ds, w))
    (Hnone : Forall (fun d => fs w !! journal_path (out args) d = None) ds)
    (Hattr : attr w = 0)
    (Hroom : 11 <= curses.height term /\ 29 <= curses.width term) :
  let path := journal_path (out args) (now w) in
  let created := <[path := File (header (now w))]> (fs w) in
  fst (select_date (ord LF :: keys) (out args) term w) = Ok (Some (now w)) /\
  exists w',
    main vi args (ord LF :: keys) term w
    = (match vi path created with
       | Some _ => Ok tt
       | None => Raise (FileNotFoundError "vi")
       end, w') /\
    exit_status (fst (main vi args (ord LF :: keys) term w))
    = Some (match vi path created with Some _ => 0 | None => 1 end) /\
    fs w' = match vi path created with Some (_, f) => f | None => created end /\
    stdout w' = stdout w ++ ["Created new journal file: " +:+ path] /\
    screen w' = [] /\ attr w' = 0.
Proof.
  cbv zeta.
  destruct (last_week_inv _ _ _ Hds) as (_ & Hlen & Hsub).
  assert (Htoday : ds !! 6%nat = Some (now w)).
  { destruct (lookup_lt_is_Some_2 ds 6 ltac:(lia)) as [d Hd].
    pose proof (Hsub 6%nat d Hd) as H6.
    change (6 - Z.of_nat 6) with 0 in H6.
    rewrite (datetime_facts.sub_days_0 _ Hvalid) in H6. congruence. }
  pose proof (last_week_screen w [] ds Hds) as Hds0.
  set (st := {| dates := ds; files_exist := map (row_exists (with_screen [] w) (out args)) ds;
                line_counts := map (row_count (with_screen [] w) (out args)) ds;
                max_row := Z.of_nat (length ds) - 1;
                current_row := Z.of_nat (length ds) - 1 |}).
  assert (Hsetup : setup (out args) (with_screen [] w) = (Ok st, with_screen [] w))
    by (apply setup_ok; [exact Hds0 | exact (none_not_dir _ _ _ Hnone)]).
  assert (Hrows : seven_rows st) by (repeat split; cbn; now rewrite ?length_map).
  assert (Hrow : on_a_row st) by (unfold on_a_row; cbn; lia).
  assert (Hroomy : roomy term st).
  { destruct Hroom as (Hh & Hw). split; [exact Hh|]. split; [exact Hw|].
    intros idx d Hd. rewrite row_text_no_file.
    - assert (Hv : datetime.valid d).
      { apply (last_week_valid w ds Hvalid Hds). apply list_elem_of_lookup. now exists idx. }
      destruct Hv as (Hy & _). unfold datetime.MAXYEAR in Hy.
      destruct (title_length_bounds d Hy) as (Hb & _). unfold Str.len. lia.
    - change (files_exist st) with (map (row_exists (with_screen [] w) (out args)) ds).
      rewrite (no_rows_exist (out args) (with_screen [] w) ds Hnone), list_lookup_fmap.
      now destruct (ds !! Z.to_nat (Z.of_nat idx)). }
  assert (Hmenu := menu_roomy (ord LF :: keys) term st (with_screen [] w)
                     Hrows Hrow Hroomy Hattr).
  cbv zeta in Hmenu. cbn [verdict_of] in Hmenu.
  change (max_row st) with (Z.of_nat (length ds) - 1) in Hmenu.
  change (current_row st) with (Z.of_nat (length ds) - 1) in Hmenu.
  rewrite (proj2 (on_key_select _ _ _) eq_refl) in Hmenu. cbn [cursor_of] in Hmenu.
  rewrite Hlen in Hmenu. change (dates st) with ds in Hmenu.
  change (Z.to_nat (Z.of_nat 7 - 1)) with 6%nat in Hmenu. rewrite Htoday in Hmenu.
  assert (Hpick : select_date (ord LF :: keys) (out args) term w
                  = (Ok (Some (now w)),
                     with_screen (expected_screen term (set_current_row (Z.of_nat 7 - 1) st)) w)).
  { rewrite select_date_setup, (bind_ok _ _ _ _ _ Hsetup). exact Hmenu. }
  split; [now rewrite Hpick|].
  assert (Hpath : fs w !! journal_path (out args) (now w) = None).
  { rewrite Forall_forall in Hnone. apply Hnone.
    apply list_elem_of_lookup. now exists 6%nat. }
  rewrite (main_select vi args (ord LF :: keys) term w Hsel Hdir).
  pose proof (wrapper_world term (select_date (ord LF :: keys) (out args)) w) as Hw.
  rewrite Hpick in Hw. cbn [fst snd] in Hw.
  rewrite (bind_ok _ _ _ _ _ Hw), (bind_ok _ _ _ _ _ (ret_ok (now w) _)).
  set (w2 := with_attr 0 (with_screen [] _)).
  pose proof (ensure_created_new (now w) (out args) w2 Hpath Hhold) as Hens.
  assert (Hcreate :
    create_journal_file vi (now w) (out args) w2
    = (subprocess_call_vi vi (journal_path (out args) (now w)) ≫= fun _ =>
         mret (journal_path (out args) (now w)))
        (with_stdout (stdout w2 ++ ["Created new journal file: "
                                    +:+ journal_path (out args) (now w)])
           (with_fs (<[journal_path (out args) (now w) := File (header (now w))]> (fs w2))
              w2))).
  { unfold create_journal_file. now rewrite (bind_ok _ _ _ _ _ Hens). }
  munfold. rewrite Hcreate. unfold subprocess_call_vi.
  cbn [fs stdout with_fs with_stdout w2 with_attr with_screen].
  destruct (vi (journal_path (out args) (now w))
              (<[journal_path (out args) (now w) := File (header (now w))]> (fs w)))
    as [[status f]|]; eexists; (split; [reflexivity|]); repeat split.
Qed.

Lemma sample_empty_window :
  last_week empty_world = (Ok (dates sample_picker), empty_world).
Proof. vm_compute. reflexivity. Qed.

Lemma confirm_creates_todays_journal_witness :
  fst (select_date [ord LF] "." terminal empty_world) = Ok (Some friday) /\
  exists w', main marking_editor sample_args [ord LF] terminal empty_world = (Ok tt, w') /\
    exit_status (fst (main marking_editor sample_args [ord LF] terminal empty_world))
    = Some 0 /\
    fs w' = <[journal_path "." friday := File "edited"]>
              (<[journal_path "." friday := File (header friday)]> (fs empty_world)) /\
    stdout w' = stdout empty_world
                ++ ["Created new journal file: " +:+ journal_path "." friday] /\
    screen w' = [] /\ attr w' = 0.
Proof.
  exact (confirm_creates_todays_journal marking_editor sample_args [] terminal
           empty_world (dates sample_picker) eq_refl eq_refl eq_refl
           (valid_of_validb friday eq_refl) sample_empty_window
           ltac:(repeat constructor) eq_refl ltac:(cbn; lia)).
Defined.

(** *** Distinct days, distinct files *)

Lemma digit_inj a b : 0 <= a < 10 -> 0 <= b < 10 -> Str.digit a = Str.digit b -> a = b.
Proof.
  intros Ha Hb H. unfold Str.digit in H.
  apply (f_equal nat_of_ascii) in H.
  rewrite !nat_ascii_embedding in H by lia. lia.
Qed.

Lemma zero_pad_2_inj m m' :
  0 <= m < 100 -> 0 <= m' < 100 ->
  Str.zero_pad 2 m = Str.zero_pad 2 m' -> m = m'.
Proof.
  intros Hm Hm' H. rewrite !zero_pad_2 in H.
  injection H as H1 H0.
  apply digit_inj in H1, H0; try apply mod10_range.
  pose proof (Z.div_mod m 10 ltac:(lia)). pose proof (Z.div_mod m' 10 ltac:(lia)).
  assert (m / 10 < 10) by (apply Z.div_lt_upper_bound; lia).
  assert (m' / 10 < 10) by (apply Z.div_lt_upper_bound; lia).
  assert (0 <= m / 10) by (apply Z.div_pos; lia).
  assert (0 <= m' / 10) by (apply Z.div_pos; lia).
  rewrite (Z.mod_small (m / 10) 10) in H1 by lia.
  rewrite (Z.mod_small (m' / 10) 10) in H1 by lia.
  lia.
Qed.

(** Two texts without a dash, each followed by a dash: where the first
    dash is tells them apart. *)
Lemma split_at_dash a : forall b r r',
  Str.all (fun c => negb (Ascii.eqb c "-")) a = true ->
  Str.all (fun c => negb (Ascii.eqb c "-")) b = true ->
  a +:+ String "-" r = b +:+ String "-" r' -> a = b /\ r = r'.
Proof.
  induction a as [|x a IH]; intros [|y b] r r' Ha Hb H; cbn [String.append Str.all] in *.
  - injection H as ->. now split.
  - injection H as <- _. discriminate.
  - injection H as -> _. discriminate.
  - apply andb_true_iff in Ha as [_ Ha]. apply andb_true_iff in Hb as [_ Hb].
    injection H as -> H. destruct (IH b r r' Ha Hb H) as (-> & ->). now split.
Qed.

(** A title names its day. *)
Lemma get_title_inj d d' :
  datetime.valid d -> datetime.valid d' -> get_title d = get_title d' ->
  datetime.year d = datetime.year d' /\ datetime.month d = datetime.month d' /\
  datetime.day d = datetime.day d'.
Proof.
  intros (Hy & Hm & Hd & _) (Hy' & Hm' & Hd' & _) H.
  pose proof (datetime_facts.days_in_month_range (datetime.year d) _ Hm).
  pose proof (datetime_facts.days_in_month_range (datetime.year d') _ Hm').
  rewrite !get_title_parts in H.
  apply split_at_dash in H as (Hyear & H);
    [|apply all_pretty; [reflexivity | lia]..].
  apply (inj pretty) in Hyear.
  rewrite (zero_pad_2 (datetime.month d)), (zero_pad_2 (datetime.month d')) in H.
  rewrite (zero_pad_2 (datetime.day d)), (zero_pad_2 (datetime.day d')) in H.
  cbn [String.append] in H.
  injection H as M1 M0 D1 D0 _.
  split; [exact Hyear|]. split.
  - apply zero_pad_2_inj; [lia | lia |]. rewrite !zero_pad_2. congruence.
  - apply zero_pad_2_inj; [lia | lia |]. rewrite !zero_pad_2. congruence.
Qed.

Lemma append_cancel_r (s s' u : string) : s +:+ u = s' +:+ u -> s = s'.
Proof.
  intros H.
  assert (Hlen : String.length s = String.length s').
  { apply (f_equal String.length) in H. rewrite !length_append in H. lia. }
  revert s' H Hlen. induction s as [|c s IH]; intros [|c' s'] H Hlen;
    try discriminate; [reflexivity|].
  cbn [String.append] in H. injection H as -> H.
  f_equal. apply IH; [exact H | now injection Hlen].
Qed.

(** X10. Two days of the calendar never share a journal file: in one
    directory, two valid dates have the same journal path exactly when
    they are the same year, month and day; the time of day plays no
    part. *)
Theorem distinct_days_distinct_files (dir : string) (d d' : datetime.t)
    (Hv : datetime.valid d) (Hv' : datetime.valid d') :
  journal_path dir d = journal_path dir d' <->
  datetime.year d = datetime.year d' /\ datetime.month d = datetime.month d' /\
  datetime.day d = datetime.day d'.
Proof.
  split.
  - rewrite !journal_path_parts. intros H.
    apply (inj (String.append _)) in H. apply append_cancel_r in H.
    now apply get_title_inj.
  - intros (Hy & Hm & Hd). rewrite !journal_path_parts, !get_title_parts.
    unfold datetime.weekday, datetime.toordinal. now rewrite Hy, Hm, Hd.
Qed.

Lemma distinct_days_distinct_files_witness :
  journal_path "." (march 14) <> journal_path "." friday.
Proof.
  intros H.
  pose proof (proj1 (distinct_days_distinct_files "." (march 14) friday
                       (valid_of_validb (march 14) eq_refl)
                       (valid_of_validb friday eq_refl)) H)
    as (_ & _ & Hd).
  discriminate Hd.
Defined.

(** *** The terminal is given back *)

(** X11. When [main] has run the picker and has ended, by a selection, a
    cancellation or an error inside the picker, the terminal is out of
    curses mode: the window is cleared and the attributes are off. *)
Theorem terminal_given_back (vi : string -> gmap string node -> option (Z * gmap string node))
    (args : Args) (keys : list Z) (term : curses.window) (w : World)
    (Hsel : select args = true)
    (Hdir : fs w !! out args = Some Dir)
    (Hend : exit_status (fst (main vi args keys term w)) <> None) :
  screen (snd (main vi args keys term w)) = [] /\
  attr (snd (main vi args keys term w)) = 0.
Proof.
  clear Hend.
  rewrite (main_select vi args keys term w Hsel Hdir).
  pose proof (wrapper_world term (select_date keys (out args)) w) as Hw.
  destruct (fst (select_date keys (out args) term w)) as [[d|]|e|].
  - rewrite (bind_ok _ _ _ _ _ Hw), (bind_ok _ _ _ _ _ (ret_ok d _)).
    set (w2 := with_attr 0 (with_screen [] _)).
    destruct (create_journal_file_fs vi d (out args) w2) as (_ & _ & Hs & Ha & _).
    munfold.
    destruct (create_journal_file vi d (out args) w2) as [[r|e|] w3];
      cbn [fst snd] in *; now rewrite Hs, Ha.
  - now rewrite (bind_ok _ _ _ _ _ Hw).
  - now rewrite (bind_raise _ _ _ _ _ Hw).
  - now rewrite (bind_blocked _ _ _ _ Hw).
Qed.

Lemma terminal_given_back_witness :
  screen (snd (main marking_editor sample_args [ord "q"] short_terminal sample_world)) = []
  /\ attr (snd (main marking_editor sample_args [ord "q"] short_terminal sample_world)) = 0.
Proof.
  exact (terminal_given_back marking_editor sample_args [ord "q"] short_terminal
           sample_world eq_refl eq_refl ltac:(vm_compute; discriminate)).
Defined.
